(** * Ledger of the SUI paper-trading bot (sui_trading_bot.py)

    A shallow embedding of the accounting core of the bot: the token table,
    the price function, the registry of user records, the buy / sell / reset
    handlers and the valuation queries.

    Modelling decisions.
    - Numbers.  The program computes with Python floats; the specification
      speaks of reals.  Amounts, prices and quantities are exact rationals
      ([Q]) here, compared up to [Qeq]; rounding, infinities and NaN are
      outside the model.
    - Exceptions.  A Python exception aborts the handler but keeps every
      mutation already made, so a computation returns a [result] together
      with the world it leaves behind.
    - Randomness.  [random.uniform] reads the next element of a stream of
      draws carried by the world; theorems that need the draw to be inside
      the interval say so.
    - Dictionaries.  [USERS] is never iterated and is a [gmap]; [TOKENS] and
      the per-user [holdings] are iterated in insertion order (one random
      draw per step), so they are insertion-ordered association lists. *)

From Stdlib Require Import QArith Lqa Ascii.
From stdpp Require Import gmap strings list.

Local Open Scope Q_scope.

(** ** Insertion-ordered dictionaries with string keys *)

Module PyDict.
Section dict.
Context {V : Type}.

Definition t := list (string * V).

(** [d.get(k)] *)
Fixpoint get (k : string) (d : t) : option V :=
  match d with
  | [] => None
  | (k', v) :: d' => if decide (k = k') then Some v else get k d'
  end.

(** [k in d] *)
Definition mem (k : string) (d : t) : bool :=
  match get k d with Some _ => true | None => false end.

(** [d[k] = v]: overwrite in place, or append a new key at the end *)
Fixpoint set (k : string) (v : V) (d : t) : t :=
  match d with
  | [] => [(k, v)]
  | (k', v') :: d' =>
      if decide (k = k') then (k', v) :: d' else (k', v') :: set k v d'
  end.

(** [del d[k]] *)
Fixpoint del (k : string) (d : t) : t :=
  match d with
  | [] => []
  | (k', v') :: d' =>
      if decide (k = k') then del k d' else (k', v') :: del k d'
  end.

Definition keys (d : t) : list string := map fst d.

Definition values (d : t) : list V := map snd d.
End dict.
Arguments t : clear implicits.
End PyDict.

(** ** Python arithmetic on exact numbers *)

(** [x > y] *)
Definition Qgtb (x y : Q) : bool := negb (Qle_bool x y).

(** ** Exceptions and results *)

Inductive dict_key :=
| KStr (s : string)
| KInt (z : Z).

Inductive exn :=
| KeyError (k : dict_key)
| ZeroDivisionError
| ValueError.

Inductive result (A : Type) :=
| Ok (a : A)
| Raise (e : exn).
Arguments Ok {A} a.
Arguments Raise {A} e.

(** [x / y]: Python raises on a zero divisor *)
Definition py_div (x y : Q) : result Q :=
  if Qeq_bool y 0 then Raise ZeroDivisionError else Ok (x / y).

(** ** Data model *)

Record token_def := { name : string; price : Q }.

Definition TOKENS : PyDict.t token_def :=
  [ ("SUI"%string,    {| name := "Sui";    price := 1.0  |});
    ("MOON"%string,   {| name := "Moon";   price := 0.5  |});
    ("STAR"%string,   {| name := "Star";   price := 0.75 |});
    ("ROCKET"%string, {| name := "Rocket"; price := 1.25 |});
    ("GALAXY"%string, {| name := "Galaxy"; price := 0.9  |}) ].

Definition REFERRAL_BONUS : Q := 500.0.

(** One entry of [user_data["holdings"]] *)
Record holding := { quantity : Q; avg_price : Q }.

(** One entry of [USERS].  Both construction sites give ["holdings"] and
    ["sui_balance"]; ["referral_bonus"] is a key that may be absent. *)
Record user_data := {
  holdings : PyDict.t holding;
  sui_balance : Q;
  referral_bonus : option Q;
}.

Definition with_holdings (f : PyDict.t holding -> PyDict.t holding)
    (u : user_data) : user_data :=
  {| holdings := f (holdings u);
     sui_balance := sui_balance u;
     referral_bonus := referral_bonus u |}.

Definition with_sui_balance (f : Q -> Q) (u : user_data) : user_data :=
  {| holdings := holdings u;
     sui_balance := f (sui_balance u);
     referral_bonus := referral_bonus u |}.

(** The process state: the global [USERS] and the random generator, the
    stream of the results of the successive [random.uniform] calls with a
    cursor. *)
Record world := {
  USERS : gmap Z user_data;
  draws : nat -> Q;
  cursor : nat;
}.

Definition set_USERS (f : gmap Z user_data -> gmap Z user_data) (w : world) : world :=
  {| USERS := f (USERS w); draws := draws w; cursor := cursor w |}.

Definition advance (w : world) : world :=
  {| USERS := USERS w; draws := draws w; cursor := S (cursor w) |}.

(** The draw the next call of [random.uniform] returns *)
Definition next_draw (w : world) : Q := draws w (cursor w).

Definition fluctuation_ok (f : Q) : Prop := -0.05 <= f <= 0.05.

(** ** The monad of handlers: state, and exceptions that keep the state *)

Definition M (A : Type) : Type := world -> result A * world.

Definition ret {A} (a : A) : M A := fun w => (Ok a, w).

Definition raise {A} (e : exn) : M A := fun w => (Raise e, w).

Definition bind {A B} (c : M A) (k : A -> M B) : M B :=
  fun w =>
    match c w with
    | (Ok a, w') => k a w'
    | (Raise e, w') => (Raise e, w')
    end.

Notation "x <- c1 ;; c2" := (bind c1 (fun x => c2))
  (at level 100, c1 at next level, right associativity).
Notation "c1 ;;; c2" := (bind c1 (fun _ => c2))
  (at level 100, right associativity).

Definition lift {A} (r : result A) : M A := fun w => (r, w).

(** [try: body except ValueError: handler] *)
Definition try_except_ValueError {A} (body handler : M A) : M A :=
  fun w =>
    match body w with
    | (Raise ValueError, w') => handler w'
    | r => r
    end.

(** [d[k]] on a dictionary with string keys *)
Definition getitem {V} (d : PyDict.t V) (k : string) : M V :=
  match PyDict.get k d with
  | Some v => ret v
  | None => raise (KeyError (KStr k))
  end.

(** [USERS[user_id]] *)
Definition USERS_getitem (user_id : Z) : M user_data :=
  fun w =>
    match USERS w !! user_id with
    | Some u => (Ok u, w)
    | None => (Raise (KeyError (KInt user_id)), w)
    end.

(** A write through the reference [user_data = USERS[user_id]]: the handler
    holds the registry's own record, so the write lands in [USERS]. *)
Definition mutate (user_id : Z) (f : user_data -> user_data) : M unit :=
  fun w => (Ok tt, set_USERS (alter f user_id) w).

(** [random.uniform(a, b)]: the next draw of the stream.  That the draw
    lies between [a] and [b] is the library's promise, a hypothesis of the
    theorems that need it ([fluctuation_ok] for the price draws). *)
Definition random_uniform (a b : Q) : M Q :=
  fun w => (Ok (next_draw w), advance w).

(** [float(update.message.text)]: the text either parses to a number or
    raises [ValueError] *)
Definition float (text : option Q) : M Q :=
  match text with
  | Some x => ret x
  | None => raise ValueError
  end.

(** ** PriceOracle: [get_token_price] *)

Definition get_token_price (symbol : string) : M Q :=
  td <- getitem TOKENS symbol ;;
  let base_price := price td in
  fluctuation <- random_uniform (-0.05) 0.05 ;;
  ret (base_price * (1 + fluctuation)).

(** The guard of [process_buy_token]: the complement of
    [token not in TOKENS or token == "SUI"] *)
Definition is_tradable (token : string) : bool :=
  PyDict.mem token TOKENS && negb (bool_decide (token = "SUI"%string)).

(** ** ValuationReporter *)

(** [for token, holding in items: total += term(holding, price(token))] *)
Fixpoint sum_over_holdings (term : holding -> Q -> Q)
    (items : list (string * holding)) (total : Q) : M Q :=
  match items with
  | [] => ret total
  | (token, h) :: rest =>
      current_price <- get_token_price token ;;
      sum_over_holdings term rest (total + term h current_price)
  end.

Definition get_portfolio_value (user_id : Z) : M Q :=
  fun w =>
    match USERS w !! user_id with
    | None => (Ok 0.0, w)
    | Some u =>
        sum_over_holdings (fun h current_price => quantity h * current_price)
          (holdings u) 0.0 w
    end.

Definition get_unrealized_pnl (user_id : Z) : M Q :=
  fun w =>
    match USERS w !! user_id with
    | None => (Ok 0.0, w)
    | Some u =>
        sum_over_holdings
          (fun h current_price => (current_price - avg_price h) * quantity h)
          (holdings u) 0.0 w
    end.

(** [(total_pnl / total_value * 100) if total_value > 0 else 0], the
    expression shared by [format_balance_message], [format_main_menu] and
    [show_pnl] *)
Definition pnl_percentage (total_pnl total_value : Q) : result Q :=
  if Qgtb total_value 0 then
    match py_div total_pnl total_value with
    | Ok r => Ok (r * 100)
    | Raise e => Raise e
    end
  else Ok 0.

(** ** Ledger *)

Definition seeded_user_data : user_data :=
  {| holdings := []; sui_balance := 1000.0; referral_bonus := Some REFERRAL_BONUS |}.

Definition get_user_data (user_id : Z) : M user_data :=
  fun w =>
    match USERS w !! user_id with
    | Some u => (Ok u, w)
    | None => (Ok seeded_user_data, set_USERS (insert user_id seeded_user_data) w)
    end.

(** States of the conversation handler *)
Inductive conv_state :=
| SELECTING_ACTION
| ENTERING_TOKEN
| ENTERING_AMOUNT
| ENTERING_SELL_QUANTITY.

(** What a trade handler answers.  The error replies carry the names of the
    specification's taxonomy; [reply_text] gives the message the source
    sends (for an executed trade, its headline). *)
Inductive reply :=
| Bought (quantity_bought amount current_price : Q)
| Sold (quantity_sold sui_received current_price : Q)
| InsufficientBalance
| InsufficientHoldings
| InvalidAmount
| InvalidQuantity.

Definition reply_text (r : reply) : string :=
  match r with
  | Bought _ _ _ | Sold _ _ _ => "Trade executed!"
  | InsufficientBalance => "Insufficient SUI balance. Please enter a smaller amount:"
  | InsufficientHoldings => "Invalid quantity. Please enter a valid amount:"
  | InvalidAmount => "Invalid amount. Please enter a valid number:"
  | InvalidQuantity => "Invalid quantity. Please enter a valid number:"
  end.

(** [process_buy_amount]; [token] is [context.user_data["buy_token"]], stored
    by [process_buy_token] after its guard [is_tradable]. *)
Definition process_buy_amount (user_id : Z) (token : string) (text : option Q)
    : M (reply * conv_state) :=
  try_except_ValueError
    (amount <- float text ;;
     user_data <- USERS_getitem user_id ;;
     if Qle_bool amount 0 then raise ValueError else
     if Qgtb amount (sui_balance user_data) then
       ret (InsufficientBalance, ENTERING_AMOUNT)
     else
       current_price <- get_token_price token ;;
       bought <- lift (py_div amount current_price) ;;
       (if PyDict.mem token (holdings user_data) then ret tt
        else mutate user_id
               (with_holdings (PyDict.set token {| quantity := 0; avg_price := 0 |}))) ;;;
       user_data <- USERS_getitem user_id ;;
       h <- getitem (holdings user_data) token ;;
       let old_quantity := quantity h in
       let old_avg_price := avg_price h in
       let new_quantity := old_quantity + bought in
       new_avg_price <- lift (py_div (old_quantity * old_avg_price + bought * current_price)
                                     new_quantity) ;;
       mutate user_id
         (with_holdings
            (PyDict.set token {| quantity := new_quantity; avg_price := new_avg_price |})) ;;;
       mutate user_id (with_sui_balance (fun b => b - amount)) ;;;
       ret (Bought bought amount current_price, SELECTING_ACTION))
    (ret (InvalidAmount, ENTERING_AMOUNT)).

(** [process_sell_quantity]; [token] is [context.user_data["sell_token"]] *)
Definition process_sell_quantity (user_id : Z) (token : string) (text : option Q)
    : M (reply * conv_state) :=
  try_except_ValueError
    (sold <- float text ;;
     user_data <- USERS_getitem user_id ;;
     if Qle_bool sold 0 then raise ValueError else
     if negb (PyDict.mem token (holdings user_data))
        || match PyDict.get token (holdings user_data) with
           | Some h => Qgtb sold (quantity h)
           | None => false
           end
     then ret (InsufficientHoldings, ENTERING_SELL_QUANTITY)
     else
       current_price <- get_token_price token ;;
       let sui_received := sold * current_price in
       h <- getitem (holdings user_data) token ;;
       let remaining := quantity h - sold in
       mutate user_id
         (with_holdings
            (PyDict.set token {| quantity := remaining; avg_price := avg_price h |})) ;;;
       (if Qeq_bool remaining 0 then mutate user_id (with_holdings (PyDict.del token))
        else ret tt) ;;;
       mutate user_id (with_sui_balance (fun b => b + sui_received)) ;;;
       ret (Sold sold sui_received current_price, SELECTING_ACTION))
    (ret (InvalidQuantity, ENTERING_SELL_QUANTITY)).

(** [reset_portfolio]: the record it stores has no ["referral_bonus"] key *)
Definition reset_user_data : user_data :=
  {| holdings := []; sui_balance := 1000.0; referral_bonus := None |}.

Definition reset_portfolio (user_id : Z) : M conv_state :=
  fun w => (Ok SELECTING_ACTION, set_USERS (insert user_id reset_user_data) w).

(** ** Rendering handlers: the numbers they put on the screen *)

(** [user_data["referral_bonus"]] *)
Definition getitem_referral_bonus (u : user_data) : M Q :=
  match referral_bonus u with
  | Some b => ret b
  | None => raise (KeyError (KStr "referral_bonus"))
  end.

Record main_menu := {
  menu_balance : Q;
  menu_bonus : Q;
  menu_pnl : Q;
  menu_pnl_percent : Q;
}.

Definition format_main_menu (user_id : Z) : M main_menu :=
  user_data <- get_user_data user_id ;;
  total_value <- get_portfolio_value user_id ;;
  total_pnl <- get_unrealized_pnl user_id ;;
  pnl_percent <- lift (pnl_percentage total_pnl total_value) ;;
  bonus <- getitem_referral_bonus user_data ;;
  ret {| menu_balance := sui_balance user_data;
         menu_bonus := bonus;
         menu_pnl := total_pnl;
         menu_pnl_percent := pnl_percent |}.

(** [show_balance]: balance and bonus *)
Definition show_balance (user_id : Z) : M (Q * Q) :=
  user_data <- get_user_data user_id ;;
  bonus <- getitem_referral_bonus user_data ;;
  ret (sui_balance user_data, bonus).

(** [show_pnl]: unrealized PnL and its percentage *)
Definition show_pnl (user_id : Z) : M (Q * Q) :=
  total_value <- get_portfolio_value user_id ;;
  total_pnl <- get_unrealized_pnl user_id ;;
  pnl_percent <- lift (pnl_percentage total_pnl total_value) ;;
  ret (total_pnl, pnl_percent).

Record balance_message := {
  msg_balance : Q;
  msg_value : Q;
  msg_pnl : Q;
  msg_pnl_percent : Q;
}.

(** [format_balance_message]: [None] is the text "No balance found" *)
Definition format_balance_message (user_id : Z) : M (option balance_message) :=
  fun w =>
    match USERS w !! user_id with
    | None => (Ok None, w)
    | Some user_data =>
        (total_value <- get_portfolio_value user_id ;;
         total_pnl <- get_unrealized_pnl user_id ;;
         pnl_percentage <- lift (pnl_percentage total_pnl total_value) ;;
         ret (Some {| msg_balance := sui_balance user_data;
                      msg_value := total_value;
                      msg_pnl := total_pnl;
                      msg_pnl_percent := pnl_percentage |})) w
    end.

(** [show_portfolio]: the balance summary, then one row per holding, each
    priced by a call of its own *)
Record portfolio_row := {
  row_token : string;
  row_quantity : Q;
  row_avg_price : Q;
  row_value : Q;
  row_pnl : Q;
  row_pnl_percent : Q;
}.

Fixpoint holding_rows (items : list (string * holding)) : M (list portfolio_row) :=
  match items with
  | [] => ret []
  | (token, h) :: rest =>
      current_price <- get_token_price token ;;
      let value := quantity h * current_price in
      let pnl := (current_price - avg_price h) * quantity h in
      pnl_percentage <- lift (pnl_percentage pnl value) ;;
      rows <- holding_rows rest ;;
      ret ({| row_token := token; row_quantity := quantity h;
              row_avg_price := avg_price h; row_value := value;
              row_pnl := pnl; row_pnl_percent := pnl_percentage |} :: rows)
  end.

Definition show_portfolio (user_id : Z)
    : M (option balance_message * list portfolio_row) :=
  user_data <- USERS_getitem user_id ;;
  message <- format_balance_message user_id ;;
  rows <- holding_rows (holdings user_data) ;;
  ret (message, rows).

(** [view_tokens]: price, simulated change and simulated volume of every
    token but the base token *)
Fixpoint token_rows (items : list (string * token_def)) : M (list (string * Q * Q * Q)) :=
  match items with
  | [] => ret []
  | (symbol, data) :: rest =>
      if bool_decide (symbol = "SUI"%string) then token_rows rest
      else
        current_price <- get_token_price symbol ;;
        change <- random_uniform (-10) 10 ;;
        volume <- random_uniform 1000 10000 ;;
        rows <- token_rows rest ;;
        ret ((symbol, current_price, change, volume) :: rows)
  end.

Definition view_tokens : M (list (string * Q * Q * Q)) := token_rows TOKENS.

(** ** The dispatcher *)

(** The updates that reach a handler reading or writing the world.  The
    remaining handlers (tutorials, the prompts of the buy and sell dialogue,
    the coming-soon screens) touch neither [USERS] nor the generator. *)
Inductive request :=
| Start (user_id : Z)
| BackToMain (user_id : Z)
| ViewTokens
| ShowPortfolio (user_id : Z)
| BuyAmount (user_id : Z) (token : string) (text : option Q)
| SellQuantity (user_id : Z) (token : string) (text : option Q)
| ResetPortfolio (user_id : Z)
| ShowBalance (user_id : Z)
| ShowPnl (user_id : Z).

(** [start]: make sure the user exists, then render the main menu *)
Definition start (user_id : Z) : M main_menu :=
  get_user_data user_id ;;; format_main_menu user_id.

(** One update: the world the handler leaves behind, whether it returned or
    raised (the application logs the exception and keeps polling). *)
Definition handle (r : request) (w : world) : world :=
  match r with
  | Start user_id => snd (start user_id w)
  | BackToMain user_id => snd (format_main_menu user_id w)
  | ViewTokens => snd (view_tokens w)
  | ShowPortfolio user_id => snd (show_portfolio user_id w)
  | BuyAmount user_id token text => snd (process_buy_amount user_id token text w)
  | SellQuantity user_id token text => snd (process_sell_quantity user_id token text w)
  | ResetPortfolio user_id => snd (reset_portfolio user_id w)
  | ShowBalance user_id => snd (show_balance user_id w)
  | ShowPnl user_id => snd (show_pnl user_id w)
  end.

Definition handle_all (rs : list request) (w : world) : world :=
  foldl (fun w r => handle r w) w rs.

(** ** Invariants *)

(** Every key of the holdings is a symbol of the token table *)
Definition holds_known_tokens (u : user_data) : Prop :=
  forall token, token ∈ PyDict.keys (holdings u) -> is_Some (PyDict.get token TOKENS).

(** The record of [user_id] is present and has lost its bonus key *)
Definition bonus_lost (user_id : Z) (w : world) : Prop :=
  exists u, USERS w !! user_id = Some u
            /\ referral_bonus u = None
            /\ holds_known_tokens u.

(** A change of one record that keeps its bonus key as it is and adds no
    unknown token *)
Definition benign (f : user_data -> user_data) : Prop :=
  forall u, referral_bonus (f u) = referral_bonus u
            /\ (holds_known_tokens u -> holds_known_tokens (f u)).

(** [keeps I c Q]: from a world satisfying [I] the computation [c] leaves a
    world satisfying [I], whether it returns or raises, and a value it
    returns satisfies [Q] *)
Definition keeps (I : world -> Prop) {A} (c : M A) (Q : A -> Prop) : Prop :=
  forall w, I w -> I (snd (c w)) /\ forall a, fst (c w) = Ok a -> Q a.

(** ** Closed forms of the records the trade handlers leave

    They are proved below to be what [process_buy_amount] and
    [process_sell_quantity] store ([process_buy_amount_run],
    [process_sell_quantity_run]). *)

(** The holding after buying [bought] units at [current_price]; a token
    that was not held starts from the zero placeholder of the handler *)
Definition bought_holding (old : option holding) (bought current_price : Q) : holding :=
  let h := default {| quantity := 0; avg_price := 0 |} old in
  {| quantity := quantity h + bought;
     avg_price := (quantity h * avg_price h + bought * current_price)
                  / (quantity h + bought) |}.

Definition after_buy (token : string) (amount current_price : Q) (u : user_data)
    : user_data :=
  {| holdings :=
       PyDict.set token
         (bought_holding (PyDict.get token (holdings u))
            (amount / current_price) current_price)
         (holdings u);
     sui_balance := sui_balance u - amount;
     referral_bonus := referral_bonus u |}.

Definition after_sell (token : string) (sold current_price : Q) (h : holding)
    (u : user_data) : user_data :=
  {| holdings :=
       if Qeq_bool (quantity h - sold) 0 then PyDict.del token (holdings u)
       else PyDict.set token
              {| quantity := quantity h - sold; avg_price := avg_price h |}
              (holdings u);
     sui_balance := sui_balance u + sold * current_price;
     referral_bonus := referral_bonus u |}.

(** ** The invariant of the data model *)





(** [only_KeyError c]: whenever [c] raises, the exception is a KeyError *)
Definition only_KeyError {A} (c : M A) : Prop :=
  forall w e, fst (c w) = Raise e -> exists k, e = KeyError k.

(** The quantity a user holds of a token: 0 when the token is not a key of
    the holdings *)
Definition held_quantity (token : string) (u : user_data) : Q :=
  match PyDict.get token (holdings u) with
  | Some h => quantity h
  | None => 0
  end.

(** ** Sample worlds *)

Definition world_SUI_up : world :=
  {| USERS := ∅; draws := fun _ => 0.05; cursor := 0 |}.

Definition world_MOON_down : world :=
  {| USERS := ∅; draws := fun _ => -0.05; cursor := 0 |}.

(** A user who holds 200 MOON bought at 0.5, in a world whose draws are
    all 0 *)
Definition trader : user_data :=
  {| holdings := [("MOON"%string, {| quantity := 200; avg_price := 0.5 |})];
     sui_balance := 900;
     referral_bonus := Some REFERRAL_BONUS |}.

Definition world_trader : world :=
  {| USERS := {[ 7%Z := trader ]}; draws := fun _ => 0; cursor := 0 |}.

(** The scenario of the specification: a new user buys MOON for 100 at
    0.5, buys for 100 more at 1.0, then sells 150 at 1.0.  The draws 0, 1, 1
    make the price function return these prices. *)
Definition world_scenario : world :=
  handle_all
    [Start 7; BuyAmount 7 "MOON" (Some 100); BuyAmount 7 "MOON" (Some 100);
     SellQuantity 7 "MOON" (Some 150)]
    {| USERS := ∅; draws := fun n => match n with O => 0 | _ => 1 end; cursor := 0 |}.

(** A record has the given balance and MOON position, up to numeric equality *)
Definition has_position (u : option user_data) (balance q avg : Q) : bool :=
  match u with
  | Some u =>
      Qeq_bool (sui_balance u) balance
      && match holdings u with
         | [(token, h)] =>
             bool_decide (token = "MOON"%string)
             && Qeq_bool (quantity h) q && Qeq_bool (avg_price h) avg
         | _ => false
         end
  | None => false
  end.

(** ** The sell dialogue: [start_sell] and [process_sell_token] *)

(** [s.split(sep)] for a one-character separator: every occurrence splits,
    empty parts are kept *)
Fixpoint split_on (sep : ascii) (s : string) : list string :=
  match s with
  | EmptyString => [EmptyString]
  | String c rest =>
      if decide (c = sep) then EmptyString :: split_on sep rest
      else match split_on sep rest with
           | [] => [String c EmptyString]
           | part :: parts => String c part :: parts
           end
  end.

(** The two messages of [start_sell] *)
Inductive sell_menu :=
| NothingToSell
| SelectTokenToSell.

(** The callback data of the button of a token: [f"sell_{token}"] *)
Definition sell_button (token : string) : string := ("sell_" +:+ token)%string.

(** [start_sell]: the message, the callback data of the buttons under it
    and the next state.  Without holdings only the back button is shown;
    otherwise one button per holding, in the order of the holdings, then the
    back button. *)
Definition start_sell (user_id : Z) : M (sell_menu * list string * conv_state) :=
  user_data <- USERS_getitem user_id ;;
  match holdings user_data with
  | [] => ret (NothingToSell, ["back_to_main"%string], SELECTING_ACTION)
  | items =>
      ret (SelectTokenToSell,
           map sell_button (PyDict.keys items) ++ ["back_to_main"%string],
           ENTERING_SELL_QUANTITY)
  end.

(** [process_sell_token]: [query.data.split("_")[1]], the token it stores in
    [context.user_data["sell_token"]]; [None] is the IndexError of a text
    without an underscore, which the pattern [^sell_] of the handler keeps
    away *)
Definition process_sell_token (data : string) : option string :=
  split_on "_"%char data !! 1%nat.

(** [sep in s] *)
Fixpoint contains (sep : ascii) (s : string) : bool :=
  match s with
  | EmptyString => false
  | String c rest => bool_decide (c = sep) || contains sep rest
  end.

(** ** The buy dialogue: [process_buy_token] *)

(** [process_buy_token]: the token it stores in
    [context.user_data["buy_token"]] ([None] when it stores nothing) and
    the next state.  [upper] is [str.upper] of the library. *)
Definition process_buy_token (upper : string -> string) (text : string)
    : option string * conv_state :=
  let token := upper text in
  if negb (PyDict.mem token TOKENS) || bool_decide (token = "SUI"%string)
  then (None, ENTERING_TOKEN)
  else (Some token, ENTERING_AMOUNT).

(** The token of a buy request was stored by [process_buy_token], the only
    writer of [context.user_data["buy_token"]] *)
Definition buy_token_stored (r : request) : Prop :=
  match r with
  | BuyAmount _ token _ =>
      exists upper text, process_buy_token upper text = (Some token, ENTERING_AMOUNT)
  | _ => True
  end.

(** The worlds the dialogues can lead to: as [reachable], with the token of
    every buy coming from [process_buy_token], and no assumption on the
    draws *)
Inductive reachable_by_dialogue : world -> Prop :=
| dialogue_init (d : nat -> Q) :
    reachable_by_dialogue {| USERS := ∅; draws := d; cursor := 0 |}
| dialogue_step (w : world) (r : request) :
    reachable_by_dialogue w -> buy_token_stored r ->
    reachable_by_dialogue (handle r w).

(** The tokens on sale: the symbols [view_tokens] lists *)
Definition tradable_tokens : list string :=
  ["MOON"; "STAR"; "ROCKET"; "GALAXY"]%string.

(** Every key of the holdings is a token on sale *)
Definition holds_tradable_tokens (u : user_data) : Prop :=
  forall token, token ∈ PyDict.keys (holdings u) -> token ∈ tradable_tokens.

(** What a user has paid for the units held of a token: quantity times
    average cost, 0 for a token that is not held *)
Definition cost_basis (token : string) (u : user_data) : Q :=
  match PyDict.get token (holdings u) with
  | Some h => quantity h * avg_price h
  | None => 0
  end.

(** ** Closed forms of the valuations *)

(** The base price the table gives a symbol (0 for a symbol off the table) *)
Definition base_price (token : string) : Q :=
  match PyDict.get token TOKENS with
  | Some td => price td
  | None => 0
  end.

(** What the valuation loop adds up when its i-th step draws [d (c + i)]:
    proved below to be the result of [sum_over_holdings] from a world with
    draws [d] and cursor [c] *)
Fixpoint priced_sum (term : holding -> Q -> Q) (items : list (string * holding))
    (d : nat -> Q) (c : nat) (total : Q) : Q :=
  match items with
  | [] => total
  | (token, h) :: rest =>
      priced_sum term rest d (S c) (total + term h (base_price token * (1 + d c)))
  end.

(** The two terms of the valuations *)
Definition value_term (h : holding) (current_price : Q) : Q :=
  quantity h * current_price.

Definition pnl_term (h : holding) (current_price : Q) : Q :=
  (current_price - avg_price h) * quantity h.

(** What was paid for all the holdings: the sum of quantity times average
    cost *)
Fixpoint total_cost (items : list (string * holding)) : Q :=
  match items with
  | [] => 0
  | (_, h) :: rest => quantity h * avg_price h + total_cost rest
  end.


(** ** Who a request is about *)

Definition request_user (r : request) : option Z :=
  match r with
  | ViewTokens => None
  | Start user_id | BackToMain user_id | ShowPortfolio user_id
  | BuyAmount user_id _ _ | SellQuantity user_id _ _
  | ResetPortfolio user_id | ShowBalance user_id | ShowPnl user_id => Some user_id
  end.

(** The registry after [get_user_data]: a missing record is seeded, a
    present one is left as it is *)
Definition with_user (user_id : Z) (users : gmap Z user_data) : gmap Z user_data :=
  match users !! user_id with
  | Some _ => users
  | None => <[user_id := seeded_user_data]> users
  end.

(** ** More sample worlds *)

Definition world_nobody : world :=
  {| USERS := ∅; draws := fun _ => 0; cursor := 0 |}.

(** A user with the seeded record and nothing else *)
Definition world_newcomer : world :=
  {| USERS := {[ 7%Z := seeded_user_data ]}; draws := fun _ => 0; cursor := 0 |}.

(** * Properties *)

(** ** Facts about dictionaries and comparisons *)

Module PyDictFacts.
Import PyDict.
Section facts.
Context {V : Type}.
Implicit Types (d : PyDict.t V) (v : V) (k : string).

Lemma get_set_eq k v d : get k (set k v d) = Some v.
Proof.
  induction d as [|[k' v'] d IH]; simpl.
  - by rewrite decide_True.
  - destruct (decide (k = k')) as [->|Hne]; simpl.
    + by rewrite decide_True.
    + by rewrite decide_False.
Qed.

Lemma get_set_ne k k' v d : k ≠ k' -> get k' (set k v d) = get k' d.
Proof.
  intros Hne. induction d as [|[k0 v0] d IH]; simpl.
  - by rewrite decide_False.
  - destruct (decide (k = k0)) as [->|Hk]; simpl.
    + by rewrite !decide_False.
    + destruct (decide (k' = k0)); [done | apply IH].
Qed.

Lemma get_del_eq k d : get k (del k d) = None.
Proof.
  induction d as [|[k' v'] d IH]; simpl; [done |].
  destruct (decide (k = k')) as [->|Hne]; simpl; [done |].
  by rewrite decide_False.
Qed.

Lemma get_del_ne k k' d : k ≠ k' -> get k' (del k d) = get k' d.
Proof.
  intros Hne. induction d as [|[k0 v0] d IH]; simpl; [done |].
  destruct (decide (k = k0)) as [->|Hk]; simpl.
  - by rewrite decide_False.
  - by rewrite IH.
Qed.

Lemma keys_set k v d x : x ∈ keys (set k v d) -> x = k ∨ x ∈ keys d.
Proof.
  induction d as [|[k' v'] d IH]; simpl.
  - intros ?%list_elem_of_singleton. by left.
  - destruct (decide (k = k')) as [->|Hne]; simpl.
    + rewrite !elem_of_cons. intros [->|Hin]; [by left | by right; right].
    + rewrite !elem_of_cons. intros [->|Hin]; [by right; left |].
      destruct (IH Hin); [by left | by right; right].
Qed.

Lemma keys_del k d x : x ∈ keys (del k d) -> x ∈ keys d.
Proof.
  induction d as [|[k' v'] d IH]; simpl; [done |].
  destruct (decide (k = k')) as [->|Hne]; simpl; rewrite !elem_of_cons.
  - intros Hin. right. by apply IH.
  - intros [->|Hin]; [by left | right; by apply IH].
Qed.
Lemma set_set k v v' d : set k v (set k v' d) = set k v d.
Proof.
  induction d as [|[k0 v0] d IH]; simpl.
  - by rewrite decide_True.
  - destruct (decide (k = k0)) as [->|Hne]; simpl.
    + by rewrite decide_True.
    + by rewrite decide_False, IH.
Qed.

Lemma del_set k v d : del k (set k v d) = del k d.
Proof.
  induction d as [|[k0 v0] d IH]; simpl.
  - by rewrite decide_True.
  - destruct (decide (k = k0)) as [->|Hne]; simpl.
    + by rewrite decide_True.
    + by rewrite decide_False, IH.
Qed.





End facts.
End PyDictFacts.

Lemma Qle_bool_true x y : Qle_bool x y = true <-> x <= y.
Proof. apply Qle_bool_iff. Qed.

Lemma Qle_bool_false x y : Qle_bool x y = false <-> y < x.
Proof.
  split.
  - intros H. apply Qnot_le_lt. intros Hle%Qle_bool_iff. congruence.
  - intros H. destruct (Qle_bool x y) eqn:E; [| done].
    apply Qle_bool_iff in E. lra.
Qed.

Lemma Qgtb_true x y : Qgtb x y = true <-> y < x.
Proof. unfold Qgtb. rewrite negb_true_iff. apply Qle_bool_false. Qed.

Lemma Qgtb_false x y : Qgtb x y = false <-> x <= y.
Proof. unfold Qgtb. rewrite negb_false_iff. apply Qle_bool_true. Qed.

Lemma Qeq_bool_false x y : Qeq_bool x y = false <-> ~ x == y.
Proof.
  split.
  - intros H Heq%Qeq_bool_iff. congruence.
  - intros H. destruct (Qeq_bool x y) eqn:E; [| done].
    apply Qeq_bool_iff in E. contradiction.
Qed.

(** ** Stepping lemmas *)

Ltac unfold_M :=
  unfold try_except_ValueError, bind, ret, raise, lift, float, getitem,
    USERS_getitem, mutate, random_uniform in *.

Lemma TOKENS_price_pos symbol td :
  PyDict.get symbol TOKENS = Some td -> 0 < price td.
Proof.
  unfold TOKENS. simpl. intros H.
  repeat case_decide; simplify_eq; simpl; lra.
Qed.

Lemma get_token_price_known symbol td w :
  PyDict.get symbol TOKENS = Some td ->
  get_token_price symbol w = (Ok (price td * (1 + next_draw w)), advance w).
Proof. intros H. unfold get_token_price. unfold_M. by rewrite H. Qed.

Lemma get_token_price_unknown symbol w :
  PyDict.get symbol TOKENS = None ->
  get_token_price symbol w = (Raise (KeyError (KStr symbol)), w).
Proof. intros H. unfold get_token_price. unfold_M. by rewrite H. Qed.

Lemma get_token_price_inv symbol w p w1 :
  get_token_price symbol w = (Ok p, w1) ->
  exists td, PyDict.get symbol TOKENS = Some td
             /\ p = price td * (1 + next_draw w) /\ w1 = advance w.
Proof.
  destruct (PyDict.get symbol TOKENS) as [td|] eqn:E.
  - rewrite (get_token_price_known _ _ _ E). intros [= <- <-]. by exists td.
  - rewrite (get_token_price_unknown _ _ E). discriminate.
Qed.

Lemma fluctuated_price_bounds (b f : Q) :
  0 < b -> fluctuation_ok f ->
  0.95 * b <= b * (1 + f) <= 1.05 * b /\ 0 < b * (1 + f).
Proof. unfold fluctuation_ok. intros Hb Hf. nra. Qed.

(** The scenario of the specification runs as it is written there: 150
    MOON left at an average cost of 2/3, and a balance of 950. *)
Example scenario_runs :
  has_position (USERS world_scenario !! 7%Z) 950 150 (2 # 3) = true.
Proof. vm_compute. reflexivity. Qed.

(** ** PriceOracle *)

(** C6, as stated, fails: with the admissible draw 0.05 the price of SUI is
    1.0 * (1 + 0.05), which is not the reference price 1.0. *)
Lemma get_token_price_SUI_not_fixed :
  fluctuation_ok (next_draw world_SUI_up)
  /\ fst (get_token_price "SUI" world_SUI_up) = Ok (1.0 * (1 + 0.05))
  /\ ~ 1.0 * (1 + 0.05) == 1.0.
Proof.
  split; [| split].
  - unfold fluctuation_ok, next_draw. simpl. lra.
  - reflexivity.
  - intros H. vm_compute in H. discriminate.
Qed.

(** C6 (amended): [get_token_price] treats SUI like every other entry of
    the table: it returns 1.0 * (1 + f) for the draw f, consumes that draw,
    equals the reference price exactly when f is 0, and stays within
    [0.95, 1.05] for a draw of the interval; the buy guard never admits SUI. *)
Theorem get_token_price_SUI (w : world) :
  get_token_price "SUI" w = (Ok (1.0 * (1 + next_draw w)), advance w)
  /\ (1.0 * (1 + next_draw w) == 1.0 <-> next_draw w == 0)
  /\ (fluctuation_ok (next_draw w) ->
      0.95 <= 1.0 * (1 + next_draw w) <= 1.05)
  /\ is_tradable "SUI" = false.
Proof.
  split; [| split; [| split]].
  - by apply (get_token_price_known "SUI" {| name := "Sui"; price := 1.0 |}).
  - split; intros H; lra.
  - unfold fluctuation_ok. intros H. lra.
  - reflexivity.
Qed.

Lemma get_token_price_SUI_witness :
  fluctuation_ok (next_draw world_SUI_up)
  /\ 0.95 <= 1.0 * (1 + next_draw world_SUI_up) <= 1.05.
Proof.
  assert (H : fluctuation_ok (next_draw world_SUI_up)).
  { unfold fluctuation_ok, next_draw. simpl. lra. }
  split; [exact H |].
  exact (proj1 (proj2 (proj2 (get_token_price_SUI world_SUI_up))) H).
Defined.

(** C7: for a symbol of the token table (the tradable ones in particular)
    with base price b, and a draw f of [-0.05, 0.05], the oracle returns
    b * (1 + f); b is positive, and the price lies in [0.95 b, 1.05 b] and
    is strictly positive. *)
Theorem get_token_price_fluctuation (symbol : string) (td : token_def) (w : world) :
  PyDict.get symbol TOKENS = Some td ->
  fluctuation_ok (next_draw w) ->
  0 < price td
  /\ get_token_price symbol w = (Ok (price td * (1 + next_draw w)), advance w)
  /\ 0.95 * price td <= price td * (1 + next_draw w) <= 1.05 * price td
  /\ 0 < price td * (1 + next_draw w).
Proof.
  intros Htd Hf.
  pose proof (TOKENS_price_pos _ _ Htd) as Hb.
  split; [exact Hb |].
  split; [by apply get_token_price_known |].
  by apply fluctuated_price_bounds.
Qed.

Lemma get_token_price_fluctuation_witness :
  get_token_price "MOON" world_MOON_down
    = (Ok (0.5 * (1 + next_draw world_MOON_down)), advance world_MOON_down)
  /\ 0 < 0.5 * (1 + next_draw world_MOON_down).
Proof.
  assert (Hf : fluctuation_ok (next_draw world_MOON_down)).
  { unfold fluctuation_ok, next_draw. simpl. lra. }
  pose proof (get_token_price_fluctuation "MOON"
                {| name := "Moon"; price := 0.5 |} world_MOON_down
                eq_refl Hf) as (_ & Hp & _ & Hpos).
  split; [exact Hp | exact Hpos].
Defined.

(** ** ValuationReporter *)

Lemma pnl_percentage_pos (total_pnl total_value : Q) :
  0 < total_value ->
  pnl_percentage total_pnl total_value = Ok (total_pnl / total_value * 100).
Proof.
  intros Hv. unfold pnl_percentage, py_div.
  rewrite (proj2 (Qgtb_true _ _) Hv).
  rewrite (proj2 (Qeq_bool_false _ _)); [done | lra].
Qed.

Lemma pnl_percentage_nonpos (total_pnl total_value : Q) :
  total_value <= 0 -> pnl_percentage total_pnl total_value = Ok 0.
Proof.
  intros Hv. unfold pnl_percentage.
  by rewrite (proj2 (Qgtb_false _ _) Hv).
Qed.

Lemma pnl_percentage_total (total_pnl total_value : Q) :
  exists r, pnl_percentage total_pnl total_value = Ok r.
Proof.
  destruct (Qlt_le_dec 0 total_value) as [Hv|Hv].
  - eexists. by apply pnl_percentage_pos.
  - eexists. by apply pnl_percentage_nonpos.
Qed.

Lemma only_KeyError_ret {A} (a : A) : only_KeyError (ret a).
Proof. intros w e. discriminate. Qed.

Lemma only_KeyError_bind {A B} (c : M A) (k : A -> M B) :
  only_KeyError c -> (forall a, only_KeyError (k a)) -> only_KeyError (bind c k).
Proof.
  intros Hc Hk w e. unfold bind.
  pose proof (Hc w) as Hcw. destruct (c w) as [[a|e'] w1]; simpl in *.
  - apply Hk.
  - intros [= <-]. by apply Hcw.
Qed.

Lemma only_KeyError_pnl_percentage (total_pnl total_value : Q) :
  only_KeyError (lift (pnl_percentage total_pnl total_value)).
Proof.
  intros w e. unfold lift. simpl.
  destruct (pnl_percentage_total total_pnl total_value) as [r ->]. discriminate.
Qed.

Lemma only_KeyError_get_token_price (symbol : string) :
  only_KeyError (get_token_price symbol).
Proof.
  intros w e. destruct (PyDict.get symbol TOKENS) as [td|] eqn:Htd.
  - rewrite (get_token_price_known _ _ _ Htd). discriminate.
  - rewrite (get_token_price_unknown _ _ Htd). intros [= <-]. by eexists.
Qed.

Lemma only_KeyError_sum_over_holdings term items total :
  only_KeyError (sum_over_holdings term items total).
Proof.
  revert total. induction items as [|[token h] rest IH]; intros total; simpl.
  - apply only_KeyError_ret.
  - apply only_KeyError_bind; [apply only_KeyError_get_token_price |].
    intros p. apply IH.
Qed.

Lemma only_KeyError_get_portfolio_value user_id :
  only_KeyError (get_portfolio_value user_id).
Proof.
  intros w e. unfold get_portfolio_value.
  destruct (USERS w !! user_id); [apply only_KeyError_sum_over_holdings | discriminate].
Qed.

Lemma only_KeyError_get_unrealized_pnl user_id :
  only_KeyError (get_unrealized_pnl user_id).
Proof.
  intros w e. unfold get_unrealized_pnl.
  destruct (USERS w !! user_id); [apply only_KeyError_sum_over_holdings | discriminate].
Qed.

Lemma only_KeyError_show_pnl user_id : only_KeyError (show_pnl user_id).
Proof.
  unfold show_pnl.
  apply only_KeyError_bind; [apply only_KeyError_get_portfolio_value |]. intros v.
  apply only_KeyError_bind; [apply only_KeyError_get_unrealized_pnl |]. intros p.
  apply only_KeyError_bind; [apply only_KeyError_pnl_percentage |]. intros pct.
  apply only_KeyError_ret.
Qed.

Lemma only_KeyError_format_balance_message user_id :
  only_KeyError (format_balance_message user_id).
Proof.
  intros w e. unfold format_balance_message.
  destruct (USERS w !! user_id) as [u|]; [| discriminate].
  revert w e. apply only_KeyError_bind; [apply only_KeyError_get_portfolio_value |].
  intros v. apply only_KeyError_bind; [apply only_KeyError_get_unrealized_pnl |].
  intros p. apply only_KeyError_bind; [apply only_KeyError_pnl_percentage |].
  intros pct. apply only_KeyError_ret.
Qed.

Lemma only_KeyError_format_main_menu user_id :
  only_KeyError (format_main_menu user_id).
Proof.
  unfold format_main_menu.
  apply only_KeyError_bind.
  { intros w e. unfold get_user_data. destruct (USERS w !! user_id); discriminate. }
  intros u.
  apply only_KeyError_bind; [apply only_KeyError_get_portfolio_value |]. intros v.
  apply only_KeyError_bind; [apply only_KeyError_get_unrealized_pnl |]. intros p.
  apply only_KeyError_bind; [apply only_KeyError_pnl_percentage |]. intros pct.
  apply only_KeyError_bind; [| intros b; apply only_KeyError_ret].
  intros w e. unfold getitem_referral_bonus.
  destruct (referral_bonus u); [discriminate |]. intros [= <-]. by eexists.
Qed.

(** C8: for every user and world, the percentage expression always has a
    value: pnl / value * 100 when the value is positive, 0 when the value
    is zero; [show_pnl], [format_balance_message] and [format_main_menu]
    never raise a division error, and when the two valuation queries
    return, [show_pnl] and [format_balance_message] report exactly that
    percentage. *)
Theorem pnl_percent_defined (user_id : Z) (w : world) :
  (forall total_pnl total_value, exists pct,
     pnl_percentage total_pnl total_value = Ok pct
     /\ (0 < total_value -> pct = total_pnl / total_value * 100)
     /\ (total_value == 0 -> pct = 0))
  /\ fst (show_pnl user_id w) <> Raise ZeroDivisionError
  /\ fst (format_balance_message user_id w) <> Raise ZeroDivisionError
  /\ fst (format_main_menu user_id w) <> Raise ZeroDivisionError
  /\ (forall w1 w2 total_value total_pnl pct,
        get_portfolio_value user_id w = (Ok total_value, w1) ->
        get_unrealized_pnl user_id w1 = (Ok total_pnl, w2) ->
        pnl_percentage total_pnl total_value = Ok pct ->
        show_pnl user_id w = (Ok (total_pnl, pct), w2)
        /\ (forall u, USERS w !! user_id = Some u ->
            format_balance_message user_id w
            = (Ok (Some {| msg_balance := sui_balance u; msg_value := total_value;
                           msg_pnl := total_pnl; msg_pnl_percent := pct |}), w2))).
Proof.
  split; [| split; [| split; [| split]]].
  - intros total_pnl total_value.
    destruct (pnl_percentage_total total_pnl total_value) as [pct Hpct].
    exists pct. split; [exact Hpct |]. split.
    + intros Hpos. rewrite (pnl_percentage_pos _ _ Hpos) in Hpct. congruence.
    + intros Hz. rewrite pnl_percentage_nonpos in Hpct by lra. congruence.
  - intros Hr. by destruct (only_KeyError_show_pnl user_id w _ Hr).
  - intros Hr. by destruct (only_KeyError_format_balance_message user_id w _ Hr).
  - intros Hr. by destruct (only_KeyError_format_main_menu user_id w _ Hr).
  - intros w1 w2 total_value total_pnl pct Hv Hp Hpct. split.
    + unfold show_pnl. unfold_M. by rewrite Hv, Hp, Hpct.
    + intros u Hu. unfold format_balance_message. unfold_M.
      by rewrite Hu, Hv, Hp, Hpct.
Qed.

(** C10: for an identity that is not in the registry both valuation queries
    return 0 and leave the whole world as it was, whereas [get_user_data]
    stores the seeded record. *)
Theorem valuation_of_unknown_user (user_id : Z) (w : world) :
  USERS w !! user_id = None ->
  get_portfolio_value user_id w = (Ok 0.0, w)
  /\ get_unrealized_pnl user_id w = (Ok 0.0, w)
  /\ USERS (snd (get_user_data user_id w)) !! user_id = Some seeded_user_data.
Proof.
  intros Hu. unfold get_portfolio_value, get_unrealized_pnl, get_user_data.
  rewrite Hu. simpl. repeat split. apply lookup_insert_eq.
Qed.

(** ** Ledger: reset *)

(** C5: [reset_portfolio] returns normally from every world; afterwards the
    user's balance is 1000 and the holdings are empty, nobody else is
    touched, and a second reset changes nothing. *)
Theorem reset_portfolio_spec (user_id : Z) (w : world) :
  let w' := snd (reset_portfolio user_id w) in
  fst (reset_portfolio user_id w) = Ok SELECTING_ACTION
  /\ (exists u, USERS w' !! user_id = Some u
                /\ sui_balance u = 1000.0 /\ holdings u = [])
  /\ (forall other, other ≠ user_id -> USERS w' !! other = USERS w !! other)
  /\ snd (reset_portfolio user_id w') = w'.
Proof.
  simpl. repeat split.
  - exists reset_user_data. split; [apply lookup_insert_eq | done].
  - intros other Hne. by apply lookup_insert_ne.
  - unfold set_USERS. simpl. by rewrite insert_insert_eq.
Qed.

(** ** Ledger: rejected trades *)

(** C3: an amount strictly greater than the balance (a balance of the data
    model: not negative) is answered with the insufficient-balance reply,
    the conversation stays in ENTERING_AMOUNT, and the world (registry and
    random generator) is untouched. *)
Theorem buy_insufficient_balance (user_id : Z) (token : string) (amount : Q)
    (u : user_data) (w : world) :
  USERS w !! user_id = Some u ->
  0 <= sui_balance u ->
  sui_balance u < amount ->
  process_buy_amount user_id token (Some amount) w
  = (Ok (InsufficientBalance, ENTERING_AMOUNT), w).
Proof.
  intros Hu Hbal Hgt. unfold process_buy_amount. unfold_M. simpl.
  rewrite Hu.
  rewrite (proj2 (Qle_bool_false amount 0)) by lra.
  by rewrite (proj2 (Qgtb_true amount (sui_balance u))).
Qed.

(** C4: a quantity strictly greater than the quantity held (0 for a token
    that is not held; held quantities of the data model are not negative)
    is answered with the insufficient-holdings reply, the conversation
    stays in ENTERING_SELL_QUANTITY, and the world is untouched. *)
Theorem sell_insufficient_holdings (user_id : Z) (token : string) (sold : Q)
    (u : user_data) (w : world) :
  USERS w !! user_id = Some u ->
  0 <= held_quantity token u ->
  held_quantity token u < sold ->
  process_sell_quantity user_id token (Some sold) w
  = (Ok (InsufficientHoldings, ENTERING_SELL_QUANTITY), w).
Proof.
  intros Hu Hheld Hgt. unfold process_sell_quantity. unfold_M. simpl.
  rewrite Hu.
  rewrite (proj2 (Qle_bool_false sold 0)) by lra.
  unfold held_quantity, PyDict.mem in *.
  destruct (PyDict.get token (holdings u)) as [h|]; simpl; [| done].
  by rewrite (proj2 (Qgtb_true sold (quantity h))).
Qed.

(** ** Ledger: executed trades *)

Lemma alter_lookup_Some (f : user_data -> user_data) (m : gmap Z user_data) i x :
  m !! i = Some x -> alter f i m = <[i := f x]> m.
Proof.
  intros H. apply map_eq. intros j. rewrite lookup_alter, lookup_insert.
  case_decide; [subst; by rewrite H | done].
Qed.


Lemma alter_insert_same (f : user_data -> user_data) (m : gmap Z user_data) i x :
  alter f i (<[i := x]> m) = <[i := f x]> m.
Proof.
  rewrite (alter_lookup_Some f _ i x) by apply lookup_insert_eq.
  apply insert_insert_eq.
Qed.

Lemma process_buy_amount_run (user_id : Z) (token : string) (amount p : Q)
    (u : user_data) (w w1 : world) :
  USERS w !! user_id = Some u ->
  get_token_price token w = (Ok p, w1) ->
  0 < p ->
  0 < amount ->
  amount <= sui_balance u ->
  0 <= held_quantity token u ->
  process_buy_amount user_id token (Some amount) w
  = (Ok (Bought (amount / p) amount p, SELECTING_ACTION),
     set_USERS (insert user_id (after_buy token amount p u)) w1).
Proof.
  intros Hu Hp Hppos Hapos Hle Hheld.
  destruct (get_token_price_inv _ _ _ _ Hp) as (td & Htd & Hpeq & ->).
  assert (Hq : 0 < amount / p) by (apply Qlt_shift_div_l; lra).
  unfold process_buy_amount. unfold_M. simpl.
  rewrite Hu.
  rewrite (proj2 (Qle_bool_false amount 0)) by lra.
  rewrite (proj2 (Qgtb_false amount (sui_balance u))) by lra.
  rewrite Hp. unfold py_div at 1.
  rewrite (proj2 (Qeq_bool_false p 0)) by lra.
  unfold after_buy, held_quantity, PyDict.mem in *.
  destruct (PyDict.get token (holdings u)) as [h|] eqn:Hh.
  - simpl. rewrite Hu, Hh. simpl. unfold py_div.
    rewrite (proj2 (Qeq_bool_false (quantity h + amount / p) 0)) by lra.
    unfold set_USERS. simpl.
    by rewrite (alter_lookup_Some _ _ _ _ Hu), alter_insert_same.
  - simpl. rewrite lookup_alter_eq, Hu. simpl.
    rewrite PyDictFacts.get_set_eq. simpl. unfold py_div.
    rewrite (proj2 (Qeq_bool_false (0 + amount / p) 0)) by lra.
    unfold set_USERS. simpl.
    rewrite (alter_lookup_Some _ _ _ _ Hu), !alter_insert_same.
    unfold with_sui_balance, with_holdings. simpl.
    by rewrite PyDictFacts.set_set.
Qed.

Lemma process_sell_quantity_run (user_id : Z) (token : string) (sold p : Q)
    (u : user_data) (h : holding) (w w1 : world) :
  USERS w !! user_id = Some u ->
  PyDict.get token (holdings u) = Some h ->
  get_token_price token w = (Ok p, w1) ->
  0 < sold ->
  sold <= quantity h ->
  process_sell_quantity user_id token (Some sold) w
  = (Ok (Sold sold (sold * p) p, SELECTING_ACTION),
     set_USERS (insert user_id (after_sell token sold p h u)) w1).
Proof.
  intros Hu Hh Hp Hpos Hle.
  destruct (get_token_price_inv _ _ _ _ Hp) as (td & Htd & Hpeq & ->).
  unfold process_sell_quantity. unfold_M. simpl.
  rewrite Hu.
  rewrite (proj2 (Qle_bool_false sold 0)) by lra.
  unfold PyDict.mem. rewrite Hh. simpl.
  rewrite (proj2 (Qgtb_false sold (quantity h))) by lra.
  rewrite Hp. simpl. unfold after_sell, set_USERS.
  destruct (Qeq_bool (quantity h - sold) 0); simpl;
    rewrite (alter_lookup_Some _ _ _ _ Hu), !alter_insert_same;
    unfold with_sui_balance, with_holdings; simpl.
  - by rewrite PyDictFacts.del_set.
  - done.
Qed.

(** C1: a valid buy (0 < amount <= balance) at the price p > 0 the oracle
    returns buys amount / p units and debits exactly the amount: afterwards
    the balance is the old balance minus the amount; a token that was not
    held gets a holding of quantity amount / p and average cost p; a token
    that was held (with a quantity of the data model: not negative) gets
    quantity old + amount / p and the quantity-weighted average cost.  The
    bonus, the other holdings and the other users are untouched. *)
Theorem buy_executes (user_id : Z) (token : string) (amount p : Q)
    (u : user_data) (w w1 : world) :
  USERS w !! user_id = Some u ->
  get_token_price token w = (Ok p, w1) ->
  0 < p ->
  0 < amount ->
  amount <= sui_balance u ->
  0 <= held_quantity token u ->
  exists u' h',
    process_buy_amount user_id token (Some amount) w
    = (Ok (Bought (amount / p) amount p, SELECTING_ACTION),
       set_USERS (insert user_id u') w1)
    /\ sui_balance u' = sui_balance u - amount
    /\ referral_bonus u' = referral_bonus u
    /\ PyDict.get token (holdings u') = Some h'
    /\ (forall other, other ≠ token ->
        PyDict.get other (holdings u') = PyDict.get other (holdings u))
    /\ match PyDict.get token (holdings u) with
       | None => quantity h' == amount / p /\ avg_price h' == p
       | Some h =>
           quantity h' = quantity h + amount / p
           /\ avg_price h'
              = (quantity h * avg_price h + amount / p * p) / (quantity h + amount / p)
       end.
Proof.
  intros Hu Hp Hppos Hapos Hle Hheld.
  assert (Hq : 0 < amount / p) by (apply Qlt_shift_div_l; lra).
  exists (after_buy token amount p u),
         (bought_holding (PyDict.get token (holdings u)) (amount / p) p).
  split; [by apply process_buy_amount_run |].
  simpl. rewrite PyDictFacts.get_set_eq. repeat split.
  - intros other Hne. by apply PyDictFacts.get_set_ne.
  - destruct (PyDict.get token (holdings u)) as [h|]; simpl; [done |].
    split; [lra | field; lra].
Qed.

(** C2: a valid sell (0 < sold <= held quantity) at the price p the oracle
    returns credits exactly sold * p to the balance; a partial sell leaves
    the holding with quantity held - sold and the same average cost, a full
    sell removes the token from the holdings.  The bonus, the other
    holdings and the other users are untouched. *)
Theorem sell_executes (user_id : Z) (token : string) (sold p : Q)
    (u : user_data) (h : holding) (w w1 : world) :
  USERS w !! user_id = Some u ->
  PyDict.get token (holdings u) = Some h ->
  get_token_price token w = (Ok p, w1) ->
  0 < sold ->
  sold <= quantity h ->
  exists u',
    process_sell_quantity user_id token (Some sold) w
    = (Ok (Sold sold (sold * p) p, SELECTING_ACTION),
       set_USERS (insert user_id u') w1)
    /\ sui_balance u' = sui_balance u + sold * p
    /\ referral_bonus u' = referral_bonus u
    /\ (forall other, other ≠ token ->
        PyDict.get other (holdings u') = PyDict.get other (holdings u))
    /\ (sold < quantity h ->
        PyDict.get token (holdings u')
        = Some {| quantity := quantity h - sold; avg_price := avg_price h |})
    /\ (sold == quantity h -> PyDict.get token (holdings u') = None).
Proof.
  intros Hu Hh Hp Hpos Hle.
  exists (after_sell token sold p h u).
  split; [by apply process_sell_quantity_run |].
  unfold after_sell. simpl.
  destruct (Qeq_bool (quantity h - sold) 0) eqn:Hz; repeat split.
  - intros other Hne. by apply PyDictFacts.get_del_ne.
  - apply Qeq_bool_iff in Hz. intros Hlt. lra.
  - intros _. apply PyDictFacts.get_del_eq.
  - intros other Hne. by apply PyDictFacts.get_set_ne.
  - intros _. apply PyDictFacts.get_set_eq.
  - apply Qeq_bool_false in Hz. intros Heq. exfalso. apply Hz. lra.
Qed.

(** ** Invariants of the dispatcher *)

Lemma benign_set_holding (token : string) (h : holding) :
  is_Some (PyDict.get token TOKENS) -> benign (with_holdings (PyDict.set token h)).
Proof.
  intros Htok u. split; [done |].
  intros Hu x Hx. simpl in Hx.
  apply PyDictFacts.keys_set in Hx as [-> | Hx]; [done | by apply Hu].
Qed.

Lemma benign_del_holding (token : string) :
  benign (with_holdings (PyDict.del token)).
Proof.
  intros u. split; [done |].
  intros Hu x Hx. simpl in Hx. by apply Hu, (PyDictFacts.keys_del token).
Qed.

Lemma benign_sui_balance (f : Q -> Q) : benign (with_sui_balance f).
Proof. intros u. by split. Qed.

Section Keeps.
Variable I : world -> Prop.
Hypothesis I_advance : forall w, I w -> I (advance w).
Hypothesis I_alter : forall user_id f w,
  benign f -> I w -> I (set_USERS (alter f user_id) w).
Hypothesis I_create : forall user_id w,
  USERS w !! user_id = None -> I w -> I (set_USERS (insert user_id seeded_user_data) w).
Hypothesis I_reset : forall user_id w,
  I w -> I (set_USERS (insert user_id reset_user_data) w).

Lemma keeps_ret {A} (a : A) (Q : A -> Prop) : Q a -> keeps I (ret a) Q.
Proof. intros HQ w HI. split; [done |]. by intros a' [= <-]. Qed.

Lemma keeps_raise {A} (e : exn) (Q : A -> Prop) : keeps I (raise e) Q.
Proof. intros w HI. split; [done | discriminate]. Qed.

Lemma keeps_lift {A} (r : result A) : keeps I (lift r) (fun a => r = Ok a).
Proof. intros w HI. split; [done |]. by intros a [= ->]. Qed.

Lemma keeps_bind {A B} (c : M A) (k : A -> M B) (Q : A -> Prop) (R : B -> Prop) :
  keeps I c Q -> (forall a, Q a -> keeps I (k a) R) -> keeps I (bind c k) R.
Proof.
  intros Hc Hk w HI. unfold bind.
  destruct (Hc w HI) as [Hw Ha]. destruct (c w) as [[a|e] w1]; simpl in *.
  - apply (Hk a (Ha a eq_refl) w1 Hw).
  - split; [done | discriminate].
Qed.

Lemma keeps_try {A} (body handler : M A) (Q : A -> Prop) :
  keeps I body Q -> keeps I handler Q -> keeps I (try_except_ValueError body handler) Q.
Proof.
  intros Hb Hh w HI. unfold try_except_ValueError.
  destruct (Hb w HI) as [Hw Ha]. destruct (body w) as [[a|[k| |]] w1]; simpl in *.
  - split; [done | exact Ha].
  - split; [done | discriminate].
  - split; [done | discriminate].
  - apply (Hh w1 Hw).
Qed.

Lemma keeps_float (text : option Q) : keeps I (float text) (fun _ => True).
Proof. destruct text; [by apply keeps_ret | apply keeps_raise]. Qed.

Lemma keeps_getitem {V} (d : PyDict.t V) (k : string) :
  keeps I (getitem d k) (fun v => PyDict.get k d = Some v).
Proof.
  unfold getitem. destruct (PyDict.get k d); [by apply keeps_ret | apply keeps_raise].
Qed.

Lemma keeps_USERS_getitem (user_id : Z) :
  keeps I (USERS_getitem user_id) (fun _ => True).
Proof.
  intros w HI. unfold USERS_getitem. by destruct (USERS w !! user_id).
Qed.

Lemma keeps_mutate (user_id : Z) (f : user_data -> user_data) :
  benign f -> keeps I (mutate user_id f) (fun _ => True).
Proof. intros Hf w HI. split; [by apply I_alter | done]. Qed.

Lemma keeps_random_uniform (a b : Q) : keeps I (random_uniform a b) (fun _ => True).
Proof. intros w HI. split; [by apply I_advance | done]. Qed.

Lemma keeps_get_token_price (symbol : string) :
  keeps I (get_token_price symbol) (fun _ => is_Some (PyDict.get symbol TOKENS)).
Proof.
  unfold get_token_price.
  eapply keeps_bind; [apply keeps_getitem |]. intros td Htd.
  eapply keeps_bind; [apply keeps_random_uniform |]. intros f _.
  apply keeps_ret. by exists td.
Qed.

Lemma keeps_sum_over_holdings term items total :
  keeps I (sum_over_holdings term items total) (fun _ => True).
Proof.
  revert total. induction items as [|[token h] rest IH]; intros total; simpl.
  - by apply keeps_ret.
  - eapply keeps_bind; [apply keeps_get_token_price |]. intros p _. apply IH.
Qed.

Lemma keeps_get_portfolio_value user_id :
  keeps I (get_portfolio_value user_id) (fun _ => True).
Proof.
  intros w HI. unfold get_portfolio_value.
  destruct (USERS w !! user_id); [by apply keeps_sum_over_holdings | done].
Qed.

Lemma keeps_get_unrealized_pnl user_id :
  keeps I (get_unrealized_pnl user_id) (fun _ => True).
Proof.
  intros w HI. unfold get_unrealized_pnl.
  destruct (USERS w !! user_id); [by apply keeps_sum_over_holdings | done].
Qed.

Lemma keeps_get_user_data user_id :
  keeps I (get_user_data user_id) (fun _ => True).
Proof.
  intros w HI. unfold get_user_data.
  destruct (USERS w !! user_id) eqn:Hu; simpl; [done |].
  split; [by apply I_create | done].
Qed.

Lemma keeps_format_balance_message user_id :
  keeps I (format_balance_message user_id) (fun _ => True).
Proof.
  intros w HI. unfold format_balance_message.
  destruct (USERS w !! user_id) as [u|]; [| done].
  revert w HI. change (keeps I
    (total_value <- get_portfolio_value user_id ;;
     total_pnl <- get_unrealized_pnl user_id ;;
     pnl_percentage <- lift (pnl_percentage total_pnl total_value) ;;
     ret (Some {| msg_balance := sui_balance u; msg_value := total_value;
                  msg_pnl := total_pnl; msg_pnl_percent := pnl_percentage |}))
    (fun _ => True)).
  eapply keeps_bind; [apply keeps_get_portfolio_value |]. intros v _.
  eapply keeps_bind; [apply keeps_get_unrealized_pnl |]. intros p _.
  eapply keeps_bind; [apply keeps_lift |]. intros pct _.
  by apply keeps_ret.
Qed.

Lemma keeps_getitem_referral_bonus u :
  keeps I (getitem_referral_bonus u) (fun _ => True).
Proof.
  unfold getitem_referral_bonus.
  destruct (referral_bonus u); [by apply keeps_ret | apply keeps_raise].
Qed.

Lemma keeps_format_main_menu user_id :
  keeps I (format_main_menu user_id) (fun _ => True).
Proof.
  unfold format_main_menu.
  eapply keeps_bind; [apply keeps_get_user_data |]. intros u _.
  eapply keeps_bind; [apply keeps_get_portfolio_value |]. intros v _.
  eapply keeps_bind; [apply keeps_get_unrealized_pnl |]. intros p _.
  eapply keeps_bind; [apply keeps_lift |]. intros pct _.
  eapply keeps_bind; [apply keeps_getitem_referral_bonus |]. intros b _.
  by apply keeps_ret.
Qed.

Lemma keeps_show_balance user_id : keeps I (show_balance user_id) (fun _ => True).
Proof.
  unfold show_balance.
  eapply keeps_bind; [apply keeps_get_user_data |]. intros u _.
  eapply keeps_bind; [apply keeps_getitem_referral_bonus |]. intros b _.
  by apply keeps_ret.
Qed.

Lemma keeps_show_pnl user_id : keeps I (show_pnl user_id) (fun _ => True).
Proof.
  unfold show_pnl.
  eapply keeps_bind; [apply keeps_get_portfolio_value |]. intros v _.
  eapply keeps_bind; [apply keeps_get_unrealized_pnl |]. intros p _.
  eapply keeps_bind; [apply keeps_lift |]. intros pct _.
  by apply keeps_ret.
Qed.

Lemma keeps_holding_rows items : keeps I (holding_rows items) (fun _ => True).
Proof.
  induction items as [|[token h] rest IH]; simpl.
  - by apply keeps_ret.
  - eapply keeps_bind; [apply keeps_get_token_price |]. intros p _.
    eapply keeps_bind; [apply keeps_lift |]. intros pct _.
    eapply keeps_bind; [apply IH |]. intros rows _.
    by apply keeps_ret.
Qed.

Lemma keeps_show_portfolio user_id : keeps I (show_portfolio user_id) (fun _ => True).
Proof.
  unfold show_portfolio.
  eapply keeps_bind; [apply keeps_USERS_getitem |]. intros u _.
  eapply keeps_bind; [apply keeps_format_balance_message |]. intros m _.
  eapply keeps_bind; [apply keeps_holding_rows |]. intros rows _.
  by apply keeps_ret.
Qed.

Lemma keeps_token_rows items : keeps I (token_rows items) (fun _ => True).
Proof.
  induction items as [|[symbol data] rest IH]; simpl.
  - by apply keeps_ret.
  - destruct (bool_decide (symbol = "SUI"%string)); [apply IH |].
    eapply keeps_bind; [apply keeps_get_token_price |]. intros p _.
    eapply keeps_bind; [apply keeps_random_uniform |]. intros change _.
    eapply keeps_bind; [apply keeps_random_uniform |]. intros volume _.
    eapply keeps_bind; [apply IH |]. intros rows _.
    by apply keeps_ret.
Qed.

Lemma keeps_process_buy_amount user_id token text :
  keeps I (process_buy_amount user_id token text) (fun _ => True).
Proof.
  unfold process_buy_amount.
  apply keeps_try; [| by apply keeps_ret].
  eapply keeps_bind; [apply keeps_float |]. intros amount _.
  eapply keeps_bind; [apply keeps_USERS_getitem |]. intros u _.
  destruct (Qle_bool amount 0); [apply keeps_raise |].
  destruct (Qgtb amount (sui_balance u)); [by apply keeps_ret |].
  eapply keeps_bind; [apply keeps_get_token_price |]. intros p Htok.
  eapply keeps_bind; [apply keeps_lift |]. intros bought _.
  eapply keeps_bind.
  { destruct (PyDict.mem token (holdings u)).
    - by apply (keeps_ret tt (fun _ => True)).
    - by apply keeps_mutate, benign_set_holding. }
  intros _ _.
  eapply keeps_bind; [apply keeps_USERS_getitem |]. intros u' _.
  eapply keeps_bind; [apply keeps_getitem |]. intros h _.
  eapply keeps_bind; [apply keeps_lift |]. intros new_avg_price _.
  eapply keeps_bind; [by apply keeps_mutate, benign_set_holding |]. intros _ _.
  eapply keeps_bind; [apply keeps_mutate, benign_sui_balance |]. intros _ _.
  by apply keeps_ret.
Qed.

Lemma keeps_process_sell_quantity user_id token text :
  keeps I (process_sell_quantity user_id token text) (fun _ => True).
Proof.
  unfold process_sell_quantity.
  apply keeps_try; [| by apply keeps_ret].
  eapply keeps_bind; [apply keeps_float |]. intros sold _.
  eapply keeps_bind; [apply keeps_USERS_getitem |]. intros u _.
  destruct (Qle_bool sold 0); [apply keeps_raise |].
  match goal with |- keeps _ (if ?b then _ else _) _ => destruct b end;
    [by apply keeps_ret |].
  eapply keeps_bind; [apply keeps_get_token_price |]. intros p Htok.
  eapply keeps_bind; [apply keeps_getitem |]. intros h _.
  eapply keeps_bind; [by apply keeps_mutate, benign_set_holding |]. intros _ _.
  eapply keeps_bind.
  { destruct (Qeq_bool (quantity h - sold) 0).
    - apply keeps_mutate, benign_del_holding.
    - by apply (keeps_ret tt (fun _ => True)). }
  intros _ _.
  eapply keeps_bind; [apply keeps_mutate, benign_sui_balance |]. intros _ _.
  by apply keeps_ret.
Qed.

Lemma keeps_reset_portfolio user_id :
  keeps I (reset_portfolio user_id) (fun _ => True).
Proof. intros w HI. split; [by apply I_reset | done]. Qed.

Lemma keeps_world {A} (c : M A) (Q : A -> Prop) (w : world) :
  keeps I c Q -> I w -> I (snd (c w)).
Proof. intros Hc HI. apply (Hc w HI). Qed.

Lemma keeps_start user_id : keeps I (start user_id) (fun _ => True).
Proof.
  unfold start.
  eapply keeps_bind; [apply keeps_get_user_data |]. intros _ _.
  apply keeps_format_main_menu.
Qed.

Lemma keeps_handle (r : request) (w : world) : I w -> I (handle r w).
Proof.
  intros HI. destruct r; cbn [handle]; eapply keeps_world; try exact HI.
  - apply keeps_start.
  - apply keeps_format_main_menu.
  - apply keeps_token_rows.
  - apply keeps_show_portfolio.
  - apply keeps_process_buy_amount.
  - apply keeps_process_sell_quantity.
  - apply keeps_reset_portfolio.
  - apply keeps_show_balance.
  - apply keeps_show_pnl.
Qed.

Lemma keeps_handle_all (rs : list request) (w : world) : I w -> I (handle_all rs w).
Proof.
  unfold handle_all. revert w.
  induction rs as [|r rs IH]; intros w HI; simpl; [done |].
  by apply IH, keeps_handle.
Qed.
End Keeps.

(** ** The bonus key after a reset *)

Lemma bonus_lost_advance user_id w : bonus_lost user_id w -> bonus_lost user_id (advance w).
Proof. done. Qed.

Lemma bonus_lost_alter user_id user_id' f w :
  benign f -> bonus_lost user_id w ->
  bonus_lost user_id (set_USERS (alter f user_id') w).
Proof.
  intros Hf (u & Hu & Hb & Hk). unfold bonus_lost. simpl.
  rewrite lookup_alter. case_decide as Heq.
  - subst. rewrite Hu. simpl. exists (f u).
    destruct (Hf u) as [Hfb Hfk]. split; [done |]. split; [congruence | auto].
  - by exists u.
Qed.

Lemma bonus_lost_create user_id user_id' w :
  USERS w !! user_id' = None -> bonus_lost user_id w ->
  bonus_lost user_id (set_USERS (insert user_id' seeded_user_data) w).
Proof.
  intros Hnone (u & Hu & Hb & Hk). exists u. simpl.
  rewrite lookup_insert_ne; [done | congruence].
Qed.

Lemma holds_known_tokens_reset : holds_known_tokens reset_user_data.
Proof. intros token Hin. simpl in Hin. by apply elem_of_nil in Hin. Qed.

Lemma bonus_lost_reset user_id user_id' w :
  bonus_lost user_id w ->
  bonus_lost user_id (set_USERS (insert user_id' reset_user_data) w).
Proof.
  intros (u & Hu & Hb & Hk). unfold bonus_lost. simpl.
  rewrite lookup_insert. case_decide.
  - exists reset_user_data. by split; [| split; [| apply holds_known_tokens_reset]].
  - by exists u.
Qed.

Lemma bonus_lost_by_reset user_id w :
  bonus_lost user_id (snd (reset_portfolio user_id w)).
Proof.
  exists reset_user_data. simpl. rewrite lookup_insert_eq.
  by split; [| split; [| apply holds_known_tokens_reset]].
Qed.

Lemma sum_over_holdings_returns term items total w :
  (forall token, token ∈ PyDict.keys items -> is_Some (PyDict.get token TOKENS)) ->
  exists v w', sum_over_holdings term items total w = (Ok v, w')
               /\ USERS w' = USERS w.
Proof.
  revert total w. induction items as [|[token h] rest IH]; intros total w Hk; simpl.
  - by exists total, w.
  - destruct (Hk token) as [td Htd]; [simpl; by left |].
    unfold bind. rewrite (get_token_price_known _ _ _ Htd).
    destruct (IH (total + term h (price td * (1 + next_draw w))) (advance w))
      as (v & w' & Hrun & Hsame).
    { intros x Hx. apply Hk. simpl. by right. }
    exists v, w'. by split.
Qed.

Lemma format_main_menu_bonus_lost user_id w :
  bonus_lost user_id w ->
  fst (format_main_menu user_id w) = Raise (KeyError (KStr "referral_bonus")).
Proof.
  intros (u & Hu & Hb & Hk).
  unfold format_main_menu, bind, get_user_data. rewrite Hu.
  unfold get_portfolio_value. rewrite Hu.
  destruct (sum_over_holdings_returns
              (fun h current_price => quantity h * current_price)
              (holdings u) 0.0 w Hk) as (v & w1 & -> & Hw1).
  unfold get_unrealized_pnl. rewrite Hw1, Hu.
  destruct (sum_over_holdings_returns
              (fun h current_price => (current_price - avg_price h) * quantity h)
              (holdings u) 0.0 w1 Hk) as (p & w2 & -> & Hw2).
  destruct (pnl_percentage_total p v) as [pct Hpct].
  unfold lift. rewrite Hpct.
  unfold getitem_referral_bonus. by rewrite Hb.
Qed.

Lemma show_balance_bonus_lost user_id w :
  bonus_lost user_id w ->
  fst (show_balance user_id w) = Raise (KeyError (KStr "referral_bonus")).
Proof.
  intros (u & Hu & Hb & Hk).
  unfold show_balance, bind, get_user_data. rewrite Hu.
  unfold getitem_referral_bonus. by rewrite Hb.
Qed.

(** C9: a record made by [get_user_data] carries the bonus (500.0); the
    record [reset_portfolio] stores does not.  After a reset of a user, and
    after any further updates of any users, the record of that user is
    still without the key, and both handlers that read it, the main menu
    and the balance display, raise KeyError for "referral_bonus" instead of
    returning. *)
Theorem referral_bonus_lost_after_reset (user_id : Z) (w : world) (later : list request) :
  let w' := handle_all later (snd (reset_portfolio user_id w)) in
  (forall w0, USERS w0 !! user_id = None ->
     exists u, fst (get_user_data user_id w0) = Ok u
               /\ referral_bonus u = Some 500.0)
  /\ (exists u, USERS w' !! user_id = Some u /\ referral_bonus u = None)
  /\ fst (format_main_menu user_id w') = Raise (KeyError (KStr "referral_bonus"))
  /\ fst (show_balance user_id w') = Raise (KeyError (KStr "referral_bonus")).
Proof.
  intros w'.
  assert (Hlost : bonus_lost user_id w').
  { apply keeps_handle_all.
    - apply bonus_lost_advance.
    - intros uid' f w0. apply bonus_lost_alter.
    - intros uid' w0. apply bonus_lost_create.
    - intros uid' w0. apply bonus_lost_reset.
    - apply bonus_lost_by_reset. }
  split; [| split; [| split]].
  - intros w0 Hnone. exists seeded_user_data.
    unfold get_user_data. by rewrite Hnone.
  - destruct Hlost as (u & Hu & Hb & _). by exists u.
  - by apply format_main_menu_bonus_lost.
  - by apply show_balance_bonus_lost.
Qed.

(** ** The invariant of the data model holds in every reachable world *)













(** ** The theorems at concrete inputs *)

Lemma buy_executes_witness :
  fst (process_buy_amount 7 "MOON" (Some 100) world_trader)
  = Ok (Bought (100 / (0.5 * (1 + 0))) 100 (0.5 * (1 + 0)), SELECTING_ACTION).
Proof.
  assert (Hp : 0 < 0.5 * (1 + 0)) by lra.
  assert (Ha : 0 < 100) by lra.
  assert (Hle : 100 <= sui_balance trader) by (simpl; lra).
  assert (Hheld : 0 <= held_quantity "MOON" trader) by (unfold held_quantity; simpl; lra).
  destruct (buy_executes 7 "MOON" 100 (0.5 * (1 + 0)) trader
              world_trader (advance world_trader) eq_refl eq_refl Hp Ha Hle Hheld)
    as (u' & h' & Hrun & _).
  by rewrite Hrun.
Defined.

Lemma sell_executes_witness :
  fst (process_sell_quantity 7 "MOON" (Some 150) world_trader)
  = Ok (Sold 150 (150 * (0.5 * (1 + 0))) (0.5 * (1 + 0)), SELECTING_ACTION).
Proof.
  assert (Hs : 0 < 150) by lra.
  assert (Hle : 150 <= quantity {| quantity := 200; avg_price := 0.5 |}) by (simpl; lra).
  destruct (sell_executes 7 "MOON" 150 (0.5 * (1 + 0)) trader
              {| quantity := 200; avg_price := 0.5 |}
              world_trader (advance world_trader) eq_refl eq_refl eq_refl Hs Hle)
    as (u' & Hrun & _).
  by rewrite Hrun.
Defined.

Lemma buy_insufficient_balance_witness :
  process_buy_amount 7 "MOON" (Some 1000) world_trader
  = (Ok (InsufficientBalance, ENTERING_AMOUNT), world_trader).
Proof.
  assert (Hbal : 0 <= sui_balance trader) by (simpl; lra).
  assert (Hgt : sui_balance trader < 1000) by (simpl; lra).
  exact (buy_insufficient_balance 7 "MOON" 1000 trader world_trader eq_refl Hbal Hgt).
Defined.

Lemma sell_insufficient_holdings_witness :
  process_sell_quantity 7 "MOON" (Some 300) world_trader
  = (Ok (InsufficientHoldings, ENTERING_SELL_QUANTITY), world_trader)
  /\ process_sell_quantity 7 "STAR" (Some 1) world_trader
     = (Ok (InsufficientHoldings, ENTERING_SELL_QUANTITY), world_trader).
Proof.
  split.
  - assert (Hheld : 0 <= held_quantity "MOON" trader) by (unfold held_quantity; simpl; lra).
    assert (Hgt : held_quantity "MOON" trader < 300) by (unfold held_quantity; simpl; lra).
    exact (sell_insufficient_holdings 7 "MOON" 300 trader world_trader eq_refl Hheld Hgt).
  - assert (Hheld : 0 <= held_quantity "STAR" trader) by (unfold held_quantity; simpl; lra).
    assert (Hgt : held_quantity "STAR" trader < 1) by (unfold held_quantity; simpl; lra).
    exact (sell_insufficient_holdings 7 "STAR" 1 trader world_trader eq_refl Hheld Hgt).
Defined.

Lemma pnl_percent_defined_witness :
  exists pct,
    show_pnl 7 world_trader
    = (Ok (0.0 + (0.5 * (1 + 0) - 0.5) * 200, pct), advance (advance world_trader))
    /\ pct = (0.0 + (0.5 * (1 + 0) - 0.5) * 200) / (0.0 + 200 * (0.5 * (1 + 0))) * 100.
Proof.
  destruct (pnl_percent_defined 7 world_trader) as (Hpct & _ & _ & _ & Hshow).
  destruct (Hpct (0.0 + (0.5 * (1 + 0) - 0.5) * 200) (0.0 + 200 * (0.5 * (1 + 0))))
    as (pct & Hrun & Hpos & _).
  exists pct. split; [| apply Hpos; lra].
  apply (Hshow (advance world_trader) (advance (advance world_trader))
           _ _ pct eq_refl eq_refl Hrun).
Defined.

Lemma valuation_of_unknown_user_witness :
  get_portfolio_value 8 world_trader = (Ok 0.0, world_trader)
  /\ get_unrealized_pnl 8 world_trader = (Ok 0.0, world_trader).
Proof.
  destruct (valuation_of_unknown_user 8 world_trader eq_refl) as (Hv & Hp & _).
  by split.
Defined.


(** * Further properties of the handlers *)

(** ** Rejected input *)




(** ** The sell menu *)

Lemma split_on_without (sep : ascii) (s : string) :
  contains sep s = false -> split_on sep s = [s].
Proof.
  induction s as [|c rest IH]; simpl; [done |].
  intros [Hc Hrest]%orb_false_iff. apply bool_decide_eq_false in Hc.
  rewrite decide_False by done. by rewrite IH.
Qed.

Lemma split_on_first (sep : ascii) (prefix rest : string) :
  contains sep prefix = false ->
  split_on sep (prefix +:+ String sep rest) = prefix :: split_on sep rest.
Proof.
  induction prefix as [|c prefix IH]; simpl.
  - intros _. by rewrite decide_True.
  - intros [Hc Hp]%orb_false_iff. apply bool_decide_eq_false in Hc.
    rewrite decide_False by done. by rewrite IH.
Qed.

Lemma process_sell_token_button (token : string) :
  contains "_" token = false ->
  process_sell_token (sell_button token) = Some token.
Proof.
  intros Htoken. unfold process_sell_token, sell_button.
  change ("sell_" +:+ token)%string with ("sell" +:+ String "_" token)%string.
  rewrite split_on_first by done.
  by rewrite split_on_without.
Qed.

Lemma TOKENS_without_underscore (token : string) :
  is_Some (PyDict.get token TOKENS) -> contains "_" token = false.
Proof.
  unfold TOKENS. simpl. intros [td Htd].
  repeat case_decide; simplify_eq; reflexivity.
Qed.

(** X4: the sell menu and its decoding round-trip.  For a user without
    holdings [start_sell] offers only the back button and the conversation
    stays in SELECTING_ACTION; otherwise it offers one button per holding,
    in the order of the holdings, followed by the back button, and (the held
    tokens being symbols of the token table) [process_sell_token] turns the
    callback data of each of these buttons back into the token of its
    holding.  The world is untouched. *)
Theorem sell_menu_round_trip (user_id : Z) (u : user_data) (w : world) :
  USERS w !! user_id = Some u ->
  holds_known_tokens u ->
  match holdings u with
  | [] =>
      start_sell user_id w
      = (Ok (NothingToSell, ["back_to_main"%string], SELECTING_ACTION), w)
  | _ =>
      let buttons := map sell_button (PyDict.keys (holdings u)) in
      start_sell user_id w
      = (Ok (SelectTokenToSell, buttons ++ ["back_to_main"%string],
             ENTERING_SELL_QUANTITY), w)
      /\ map process_sell_token buttons = map Some (PyDict.keys (holdings u))
  end.
Proof.
  intros Hu Hknown. unfold start_sell. unfold_M. rewrite Hu.
  destruct (holdings u) as [|[token h] rest] eqn:Hh; [done |].
  split; [reflexivity |].
  rewrite map_map. apply map_ext_in. intros t Ht.
  apply process_sell_token_button, TOKENS_without_underscore, Hknown.
  rewrite Hh. by apply list_elem_of_In.
Qed.

Lemma sell_menu_round_trip_witness :
  start_sell 7 world_trader
  = (Ok (SelectTokenToSell, ["sell_MOON"; "back_to_main"]%string,
         ENTERING_SELL_QUANTITY), world_trader)
  /\ map process_sell_token ["sell_MOON"%string] = [Some "MOON"%string].
Proof.
  assert (Hknown : holds_known_tokens trader).
  { intros token [->|Hin%elem_of_nil]%elem_of_cons; [by eexists | done]. }
  exact (sell_menu_round_trip 7 trader world_trader eq_refl Hknown).
Defined.

(** ** Every outcome of a trade *)

Lemma Qdiv_nonzero (a p : Q) : 0 < a -> ~ p == 0 -> ~ a / p == 0.
Proof.
  intros Ha Hp Hz. assert (Heq : a == a / p * p) by (field; exact Hp).
  rewrite Hz in Heq. lra.
Qed.

Lemma process_buy_amount_run_gen (user_id : Z) (token : string) (amount p : Q)
    (u : user_data) (w w1 : world) :
  USERS w !! user_id = Some u ->
  get_token_price token w = (Ok p, w1) ->
  ~ p == 0 ->
  0 < amount ->
  amount <= sui_balance u ->
  ~ held_quantity token u + amount / p == 0 ->
  process_buy_amount user_id token (Some amount) w
  = (Ok (Bought (amount / p) amount p, SELECTING_ACTION),
     set_USERS (insert user_id (after_buy token amount p u)) w1).
Proof.
  intros Hu Hp Hpnz Hapos Hle Hsum.
  destruct (get_token_price_inv _ _ _ _ Hp) as (td & Htd & Hpeq & ->).
  unfold process_buy_amount. unfold_M. simpl.
  rewrite Hu.
  rewrite (proj2 (Qle_bool_false amount 0)) by lra.
  rewrite (proj2 (Qgtb_false amount (sui_balance u))) by lra.
  rewrite Hp. unfold py_div at 1.
  rewrite (proj2 (Qeq_bool_false p 0)) by done.
  unfold after_buy, held_quantity, PyDict.mem in *.
  destruct (PyDict.get token (holdings u)) as [h|] eqn:Hh.
  - simpl. rewrite Hu, Hh. simpl. unfold py_div.
    rewrite (proj2 (Qeq_bool_false (quantity h + amount / p) 0)) by done.
    unfold set_USERS. simpl.
    by rewrite (alter_lookup_Some _ _ _ _ Hu), alter_insert_same.
  - simpl. rewrite lookup_alter_eq, Hu. simpl.
    rewrite PyDictFacts.get_set_eq. simpl. unfold py_div.
    rewrite (proj2 (Qeq_bool_false (0 + amount / p) 0)) by done.
    unfold set_USERS. simpl.
    rewrite (alter_lookup_Some _ _ _ _ Hu), !alter_insert_same.
    unfold with_sui_balance, with_holdings. simpl.
    by rewrite PyDictFacts.set_set.
Qed.

(** A buy either changes nothing in [USERS] and is no executed trade, or
    is the executed trade in full. *)
Lemma process_buy_amount_cases (user_id : Z) (token : string) (text : option Q)
    (w : world) :
  (USERS (snd (process_buy_amount user_id token text w)) = USERS w
   /\ forall q a p, fst (process_buy_amount user_id token text w)
                    <> Ok (Bought q a p, SELECTING_ACTION))
  \/ exists amount p u,
       text = Some amount
       /\ USERS w !! user_id = Some u
       /\ 0 < amount /\ amount <= sui_balance u
       /\ get_token_price token w = (Ok p, advance w)
       /\ process_buy_amount user_id token text w
          = (Ok (Bought (amount / p) amount p, SELECTING_ACTION),
             set_USERS (insert user_id (after_buy token amount p u)) (advance w)).
Proof.
  destruct text as [amount|]; [| by left].
  destruct (USERS w !! user_id) as [u|] eqn:Hu.
  2: { left. unfold process_buy_amount. unfold_M. simpl. by rewrite Hu. }
  destruct (Qlt_le_dec 0 amount) as [Ha|Ha].
  2: { left. unfold process_buy_amount. unfold_M. simpl. rewrite Hu.
       by rewrite (proj2 (Qle_bool_true amount 0)). }
  destruct (Qlt_le_dec (sui_balance u) amount) as [Hgt|Hle].
  { left. unfold process_buy_amount. unfold_M. simpl. rewrite Hu.
    rewrite (proj2 (Qle_bool_false amount 0)) by done.
    by rewrite (proj2 (Qgtb_true amount (sui_balance u))). }
  destruct (PyDict.get token TOKENS) as [td|] eqn:Htd.
  2: { left. unfold process_buy_amount. unfold_M. simpl. rewrite Hu.
       rewrite (proj2 (Qle_bool_false amount 0)) by done.
       rewrite (proj2 (Qgtb_false amount (sui_balance u))) by done.
       by rewrite (get_token_price_unknown _ _ Htd). }
  pose proof (get_token_price_known _ _ w Htd) as Hp.
  set (p := price td * (1 + next_draw w)) in *.
  destruct (Qeq_bool p 0) eqn:Hpz.
  { left.
    assert (Hrun : process_buy_amount user_id token (Some amount) w
                   = (Raise ZeroDivisionError, advance w)).
    { unfold process_buy_amount. unfold_M. simpl. rewrite Hu.
      rewrite (proj2 (Qle_bool_false amount 0)) by done.
      rewrite (proj2 (Qgtb_false amount (sui_balance u))) by done.
      rewrite Hp. unfold py_div at 1. by rewrite Hpz. }
    by rewrite Hrun. }
  apply Qeq_bool_false in Hpz.
  destruct (Qeq_bool (held_quantity token u + amount / p) 0) eqn:Hsum.
  - left. unfold held_quantity in Hsum.
    destruct (PyDict.get token (holdings u)) as [h|] eqn:Hh.
    + assert (Hrun : process_buy_amount user_id token (Some amount) w
                     = (Raise ZeroDivisionError, advance w)).
      { unfold process_buy_amount. unfold_M. simpl. rewrite Hu.
        rewrite (proj2 (Qle_bool_false amount 0)) by done.
        rewrite (proj2 (Qgtb_false amount (sui_balance u))) by done.
        rewrite Hp. unfold py_div at 1.
        rewrite (proj2 (Qeq_bool_false p 0)) by done.
        unfold PyDict.mem. rewrite Hh. simpl. rewrite Hu, Hh. simpl.
        unfold py_div. by rewrite Hsum. }
      by rewrite Hrun.
    + apply Qeq_bool_iff in Hsum. exfalso.
      apply (Qdiv_nonzero amount p Ha Hpz). lra.
  - apply Qeq_bool_false in Hsum. right. exists amount, p, u.
    repeat split; try done.
    by apply process_buy_amount_run_gen.
Qed.

(** A sell either changes nothing in [USERS] and is no executed trade, or
    is the executed trade in full. *)
Lemma process_sell_quantity_cases (user_id : Z) (token : string) (text : option Q)
    (w : world) :
  (USERS (snd (process_sell_quantity user_id token text w)) = USERS w
   /\ forall q r p, fst (process_sell_quantity user_id token text w)
                    <> Ok (Sold q r p, SELECTING_ACTION))
  \/ exists sold p u h,
       text = Some sold
       /\ USERS w !! user_id = Some u
       /\ PyDict.get token (holdings u) = Some h
       /\ 0 < sold /\ sold <= quantity h
       /\ get_token_price token w = (Ok p, advance w)
       /\ process_sell_quantity user_id token text w
          = (Ok (Sold sold (sold * p) p, SELECTING_ACTION),
             set_USERS (insert user_id (after_sell token sold p h u)) (advance w)).
Proof.
  destruct text as [sold|]; [| by left].
  destruct (USERS w !! user_id) as [u|] eqn:Hu.
  2: { left. unfold process_sell_quantity. unfold_M. simpl. by rewrite Hu. }
  destruct (Qlt_le_dec 0 sold) as [Hs|Hs].
  2: { left. unfold process_sell_quantity. unfold_M. simpl. rewrite Hu.
       by rewrite (proj2 (Qle_bool_true sold 0)). }
  destruct (PyDict.get token (holdings u)) as [h|] eqn:Hh.
  2: { left. unfold process_sell_quantity. unfold_M. simpl. rewrite Hu.
       rewrite (proj2 (Qle_bool_false sold 0)) by done.
       unfold PyDict.mem. by rewrite Hh. }
  destruct (Qlt_le_dec (quantity h) sold) as [Hgt|Hle].
  { left. unfold process_sell_quantity. unfold_M. simpl. rewrite Hu.
    rewrite (proj2 (Qle_bool_false sold 0)) by done.
    unfold PyDict.mem. rewrite Hh. simpl.
    by rewrite (proj2 (Qgtb_true sold (quantity h))). }
  destruct (PyDict.get token TOKENS) as [td|] eqn:Htd.
  2: { left. unfold process_sell_quantity. unfold_M. simpl. rewrite Hu.
       rewrite (proj2 (Qle_bool_false sold 0)) by done.
       unfold PyDict.mem. rewrite Hh. simpl.
       rewrite (proj2 (Qgtb_false sold (quantity h))) by done.
       by rewrite (get_token_price_unknown _ _ Htd). }
  right. exists sold, (price td * (1 + next_draw w)), u, h.
  pose proof (get_token_price_known _ _ w Htd) as Hp.
  repeat split; try done.
  by apply process_sell_quantity_run.
Qed.

(** X5: a trade is all or nothing.  Unless the handler answers with the
    executed trade, [USERS] is exactly as before: a rejection and every
    exception (an unknown user or token, a division by zero) leave no
    partial update behind, not even the zero placeholder a buy stores for a
    new token before it computes the average. *)
Theorem trade_all_or_nothing (user_id : Z) (token : string) (text : option Q)
    (w : world) :
  ((forall q a p, fst (process_buy_amount user_id token text w)
                  <> Ok (Bought q a p, SELECTING_ACTION)) ->
   USERS (snd (process_buy_amount user_id token text w)) = USERS w)
  /\ ((forall q r p, fst (process_sell_quantity user_id token text w)
                     <> Ok (Sold q r p, SELECTING_ACTION)) ->
      USERS (snd (process_sell_quantity user_id token text w)) = USERS w).
Proof.
  split; intros Hno.
  - destruct (process_buy_amount_cases user_id token text w)
      as [[Hsame _] | (amount & p & u & _ & _ & _ & _ & _ & Hrun)]; [done |].
    exfalso. apply (Hno (amount / p) amount p). by rewrite Hrun.
  - destruct (process_sell_quantity_cases user_id token text w)
      as [[Hsame _] | (sold & p & u & h & _ & _ & _ & _ & _ & _ & Hrun)]; [done |].
    exfalso. apply (Hno sold (sold * p) p). by rewrite Hrun.
Qed.

(** ** What the other handlers do to the registry *)

Lemma keeps_USERS_world {A} (c : M A) (w : world) :
  keeps (fun w' => USERS w' = USERS w) c (fun _ => True) ->
  USERS (snd (c w)) = USERS w.
Proof. intros Hc. by apply (Hc w). Qed.

Lemma bind_USERS_after {A B} (c : M A) (k : A -> M B) (w : world) :
  (forall a, keeps (fun w' => USERS w' = USERS (snd (c w))) (k a) (fun _ => True)) ->
  USERS (snd (bind c k w)) = USERS (snd (c w)).
Proof.
  intros Hk. unfold bind. destruct (c w) as [[a|e] w1]; simpl in *; [| done].
  by apply (Hk a w1).
Qed.

Lemma get_user_data_USERS (user_id : Z) (w : world) :
  USERS (snd (get_user_data user_id w)) = with_user user_id (USERS w).
Proof.
  unfold get_user_data, with_user. by destruct (USERS w !! user_id).
Qed.

Lemma with_user_idemp (user_id : Z) (users : gmap Z user_data) :
  with_user user_id (with_user user_id users) = with_user user_id users.
Proof.
  unfold with_user. destruct (users !! user_id) eqn:Hu.
  - by rewrite Hu.
  - by rewrite lookup_insert_eq.
Qed.

Lemma format_main_menu_USERS (user_id : Z) (w : world) :
  USERS (snd (format_main_menu user_id w)) = with_user user_id (USERS w).
Proof.
  unfold format_main_menu. rewrite bind_USERS_after; [apply get_user_data_USERS |].
  intros u.
  eapply keeps_bind; [by apply keeps_get_portfolio_value |]. intros v _.
  eapply keeps_bind; [by apply keeps_get_unrealized_pnl |]. intros p _.
  eapply keeps_bind; [apply keeps_lift |]. intros pct _.
  eapply keeps_bind; [apply keeps_getitem_referral_bonus |]. intros b _.
  by apply keeps_ret.
Qed.

Lemma show_balance_USERS (user_id : Z) (w : world) :
  USERS (snd (show_balance user_id w)) = with_user user_id (USERS w).
Proof.
  unfold show_balance. rewrite bind_USERS_after; [apply get_user_data_USERS |].
  intros u.
  eapply keeps_bind; [apply keeps_getitem_referral_bonus |]. intros b _.
  by apply keeps_ret.
Qed.

Lemma start_USERS (user_id : Z) (w : world) :
  USERS (snd (start user_id w)) = with_user user_id (USERS w).
Proof.
  pose proof (get_user_data_USERS user_id w) as Hcreated.
  unfold start, bind. destruct (get_user_data user_id w) as [[u|e] w1]; simpl in *.
  - rewrite format_main_menu_USERS, Hcreated. apply with_user_idemp.
  - done.
Qed.

Lemma lookup_with_user_ne (user_id other : Z) (users : gmap Z user_data) :
  user_id <> other -> with_user user_id users !! other = users !! other.
Proof.
  intros Hne. unfold with_user. destruct (users !! user_id); [done |].
  by apply lookup_insert_ne.
Qed.

Lemma lookup_with_user_Some (user_id other : Z) (users : gmap Z user_data) u :
  with_user user_id users !! other = Some u ->
  users !! other = Some u \/ u = seeded_user_data.
Proof.
  unfold with_user. destruct (users !! user_id); [by left |].
  rewrite lookup_insert. case_decide; [intros [= <-]; by right | by left].
Qed.

Lemma view_tokens_USERS (w : world) : USERS (snd (view_tokens w)) = USERS w.
Proof. by apply keeps_USERS_world, keeps_token_rows. Qed.

Lemma show_portfolio_USERS (user_id : Z) (w : world) :
  USERS (snd (show_portfolio user_id w)) = USERS w.
Proof. by apply keeps_USERS_world, keeps_show_portfolio. Qed.

Lemma show_pnl_USERS (user_id : Z) (w : world) :
  USERS (snd (show_pnl user_id w)) = USERS w.
Proof. by apply keeps_USERS_world, keeps_show_pnl. Qed.

(** X6: the rendering handlers never change an existing account.  The
    token list, the portfolio, the PnL screen and the three valuation
    functions leave [USERS] as it is, also when they raise; the main menu
    (on /start and on the way back) and the balance screen only add the
    seeded record of a user who has none: a user who starts the bot again
    keeps the balance and the holdings. *)
Theorem rendering_keeps_accounts (r : request) (w : world) :
  match r with
  | ViewTokens | ShowPortfolio _ | ShowPnl _ => USERS (handle r w) = USERS w
  | Start user_id | BackToMain user_id | ShowBalance user_id =>
      USERS (handle r w) = with_user user_id (USERS w)
      /\ (is_Some (USERS w !! user_id) -> USERS (handle r w) = USERS w)
  | _ => True
  end
  /\ (forall user_id,
        USERS (snd (get_portfolio_value user_id w)) = USERS w
        /\ USERS (snd (get_unrealized_pnl user_id w)) = USERS w
        /\ USERS (snd (format_balance_message user_id w)) = USERS w).
Proof.
  assert (Hpresent : forall user_id, is_Some (USERS w !! user_id) ->
                                     with_user user_id (USERS w) = USERS w).
  { intros user_id [u Hu]. unfold with_user. by rewrite Hu. }
  split.
  - destruct r; cbn [handle]; try exact I.
    + rewrite start_USERS. split; [done | apply Hpresent].
    + rewrite format_main_menu_USERS. split; [done | apply Hpresent].
    + apply view_tokens_USERS.
    + apply show_portfolio_USERS.
    + rewrite show_balance_USERS. split; [done | apply Hpresent].
    + apply show_pnl_USERS.
  - intros user_id. repeat split.
    + by apply keeps_USERS_world, keeps_get_portfolio_value.
    + by apply keeps_USERS_world, keeps_get_unrealized_pnl.
    + by apply keeps_USERS_world, keeps_format_balance_message.
Qed.

(** X7: no request touches another user.  Whatever a handler does, returning
    or raising, the record of every user other than the one the request is
    about is the same before and after (and [view_tokens] touches nobody). *)
Theorem handle_isolation (r : request) (w : world) (other : Z) :
  request_user r <> Some other ->
  USERS (handle r w) !! other = USERS w !! other.
Proof.
  intros Hne.
  assert (Hother : forall user_id, request_user r = Some user_id -> user_id <> other)
    by (intros user_id Hr ->; contradiction).
  destruct r; cbn [handle request_user] in *.
  - rewrite start_USERS. by apply lookup_with_user_ne, Hother.
  - rewrite format_main_menu_USERS. by apply lookup_with_user_ne, Hother.
  - by rewrite view_tokens_USERS.
  - by rewrite show_portfolio_USERS.
  - destruct (process_buy_amount_cases user_id token text w)
      as [[-> _] | (amount & p & u & _ & _ & _ & _ & _ & ->)]; [done |].
    simpl. by apply lookup_insert_ne, Hother.
  - destruct (process_sell_quantity_cases user_id token text w)
      as [[-> _] | (sold & p & u & h & _ & _ & _ & _ & _ & _ & ->)]; [done |].
    simpl. by apply lookup_insert_ne, Hother.
  - simpl. by apply lookup_insert_ne, Hother.
  - rewrite show_balance_USERS. by apply lookup_with_user_ne, Hother.
  - by rewrite show_pnl_USERS.
Qed.

Lemma handle_isolation_witness :
  USERS (handle (BuyAmount 7 "MOON" (Some 100))
           (handle (Start 8) world_trader)) !! 8%Z
  = Some seeded_user_data.
Proof.
  rewrite (handle_isolation (BuyAmount 7 "MOON" (Some 100))
             (handle (Start 8) world_trader) 8); [reflexivity |].
  simpl. discriminate.
Defined.

(** ** What the dialogues let a user hold *)

Lemma get_in_keys {V} (k : string) (v : V) (d : PyDict.t V) :
  PyDict.get k d = Some v -> k ∈ PyDict.keys d.
Proof.
  induction d as [|[k0 v0] d IH]; simpl; [done |].
  destruct (decide (k = k0)) as [->|Hne]; [intros _; by left |].
  intros Hget. right. by apply IH.
Qed.

Lemma tradable_tokens_guard (token : string) :
  PyDict.mem token TOKENS = true -> token <> "SUI"%string ->
  token ∈ tradable_tokens.
Proof.
  unfold PyDict.mem, TOKENS, tradable_tokens. simpl. intros Hmem Hsui.
  repeat case_decide; subst; try done; rewrite !elem_of_cons; auto 10.
Qed.

Lemma process_buy_token_stored upper text token s :
  process_buy_token upper text = (Some token, s) ->
  token = upper text /\ s = ENTERING_AMOUNT /\ token ∈ tradable_tokens.
Proof.
  unfold process_buy_token.
  destruct (negb (PyDict.mem (upper text) TOKENS)
            || bool_decide (upper text = "SUI"%string)) eqn:Hguard; [done |].
  intros [= <- <-]. split; [done |]. split; [done |].
  apply orb_false_iff in Hguard as [Hmem Hsui].
  apply negb_false_iff in Hmem. apply bool_decide_eq_false in Hsui.
  by apply tradable_tokens_guard.
Qed.

Lemma holds_tradable_seeded : holds_tradable_tokens seeded_user_data.
Proof. intros token Hin. simpl in Hin. by apply elem_of_nil in Hin. Qed.

Lemma holds_tradable_after_buy token amount p u :
  token ∈ tradable_tokens -> holds_tradable_tokens u ->
  holds_tradable_tokens (after_buy token amount p u).
Proof.
  intros Htoken Hu t Ht. simpl in Ht.
  apply PyDictFacts.keys_set in Ht as [-> | Ht]; [done | by apply Hu].
Qed.

Lemma holds_tradable_after_sell token sold p h u :
  PyDict.get token (holdings u) = Some h -> holds_tradable_tokens u ->
  holds_tradable_tokens (after_sell token sold p h u).
Proof.
  intros Hh Hu t Ht. unfold after_sell in Ht. simpl in Ht.
  destruct (Qeq_bool (quantity h - sold) 0).
  - by apply Hu, (PyDictFacts.keys_del token).
  - apply PyDictFacts.keys_set in Ht as [-> | Ht]; [| by apply Hu].
    by apply Hu, (get_in_keys _ h).
Qed.

(** X8: the dialogues only ever let a user hold tokens on sale.  In every
    world reached by serving updates, the token of each buy having passed
    the guard of [process_buy_token], every key of every user's holdings is
    one of MOON, STAR, ROCKET and GALAXY: nobody holds SUI or a symbol off
    the table. *)
Theorem dialogue_holds_tradable (w : world) :
  reachable_by_dialogue w ->
  forall user_id u, USERS w !! user_id = Some u ->
    holds_tradable_tokens u
    /\ forall token, token ∈ PyDict.keys (holdings u) ->
         token <> "SUI"%string /\ is_Some (PyDict.get token TOKENS).
Proof.
  intros Hreach.
  assert (Hcons : forall u, holds_tradable_tokens u ->
            forall token, token ∈ PyDict.keys (holdings u) ->
              token <> "SUI"%string /\ is_Some (PyDict.get token TOKENS)).
  { intros u Hu token Hin. specialize (Hu token Hin).
    unfold tradable_tokens in Hu.
    repeat (apply elem_of_cons in Hu as [-> | Hu]); try (split; [done | by eexists]).
    by apply elem_of_nil in Hu. }
  enough (Hinv : forall user_id u, USERS w !! user_id = Some u ->
                                   holds_tradable_tokens u).
  { intros user_id u Hu. split; [by eapply Hinv | by eapply Hcons, Hinv]. }
  clear Hcons. induction Hreach as [d | w r Hreach IH Hstored].
  - intros user_id u. simpl. by rewrite lookup_empty.
  - assert (Hwith : forall uid user_id u,
              with_user uid (USERS w) !! user_id = Some u -> holds_tradable_tokens u).
    { intros uid user_id u [Hu | ->]%lookup_with_user_Some;
        [by eapply IH | apply holds_tradable_seeded]. }
    destruct r; cbn [handle buy_token_stored] in *; intros uid u.
    + rewrite start_USERS. apply Hwith.
    + rewrite format_main_menu_USERS. apply Hwith.
    + rewrite view_tokens_USERS. apply IH.
    + rewrite show_portfolio_USERS. apply IH.
    + destruct Hstored as (upper & text' & (_ & _ & Htoken)%process_buy_token_stored).
      destruct (process_buy_amount_cases user_id token text w)
        as [[-> _] | (amount & p & u0 & _ & Hu0 & _ & _ & _ & ->)]; [apply IH |].
      simpl. rewrite lookup_insert. case_decide; [| apply IH].
      intros [= <-]. apply holds_tradable_after_buy; [done | by eapply IH].
    + destruct (process_sell_quantity_cases user_id token text w)
        as [[-> _] | (sold & p & u0 & h & _ & Hu0 & Hh & _ & _ & _ & ->)]; [apply IH |].
      simpl. rewrite lookup_insert. case_decide; [| apply IH].
      intros [= <-]. apply holds_tradable_after_sell; [done | by eapply IH].
    + simpl. rewrite lookup_insert. case_decide; [| apply IH].
      intros [= <-] token Hin. simpl in Hin. by apply elem_of_nil in Hin.
    + rewrite show_balance_USERS. apply Hwith.
    + rewrite show_pnl_USERS. apply IH.
Qed.

Lemma dialogue_holds_tradable_witness :
  holds_tradable_tokens
    {| holdings := [("MOON"%string, {| quantity := 0 + 100 / (0.5 * (1 + 0));
                                        avg_price := (0 * 0 + 100 / (0.5 * (1 + 0)) * (0.5 * (1 + 0)))
                                                     / (0 + 100 / (0.5 * (1 + 0))) |})];
       sui_balance := 1000.0 - 100;
       referral_bonus := Some REFERRAL_BONUS |}.
Proof.
  refine (proj1 (dialogue_holds_tradable
                   (handle (BuyAmount 7 "MOON" (Some 100)) (handle (Start 7) world_nobody))
                   _ 7 _ eq_refl)).
  apply dialogue_step; [apply dialogue_step; [apply dialogue_init | exact I] |].
  exists (fun s => s), "MOON"%string. reflexivity.
Defined.

(** ** Trades return *)



(** ** Buying and selling back *)

Lemma del_absent {V} (k : string) (d : PyDict.t V) :
  PyDict.get k d = None -> PyDict.del k d = d.
Proof.
  induction d as [|[k0 v0] d IH]; simpl; [done |].
  destruct (decide (k = k0)); [done |]. intros Hget. by rewrite IH.
Qed.

(** X10: buying a token that was not held and selling back the whole
    quantity bought undoes the purchase.  After a buy of [amount] at price
    p and the sale of the amount / p units at price p', the holdings are
    exactly the holdings before the buy (the token is gone again), the bonus
    is untouched, and the balance is the old balance minus the amount plus
    amount / p * p': the old balance itself when the two prices agree. *)
Theorem buy_then_sell_back (user_id : Z) (token : string) (amount p p' : Q)
    (u : user_data) (w : world) :
  USERS w !! user_id = Some u ->
  PyDict.get token (holdings u) = None ->
  get_token_price token w = (Ok p, advance w) ->
  get_token_price token (advance w) = (Ok p', advance (advance w)) ->
  0 < p ->
  0 < amount ->
  amount <= sui_balance u ->
  let w1 := snd (process_buy_amount user_id token (Some amount) w) in
  let sale := process_sell_quantity user_id token (Some (amount / p)) w1 in
  fst sale = Ok (Sold (amount / p) (amount / p * p') p', SELECTING_ACTION)
  /\ exists u2,
       USERS (snd sale) !! user_id = Some u2
       /\ holdings u2 = holdings u
       /\ referral_bonus u2 = referral_bonus u
       /\ sui_balance u2 == sui_balance u - amount + amount / p * p'
       /\ (p' == p -> sui_balance u2 == sui_balance u).
Proof.
  intros Hu Hnone Hp Hp' Hppos Ha Hle w1 sale.
  assert (Hq : 0 < amount / p) by (apply Qlt_shift_div_l; lra).
  assert (Hheld : 0 <= held_quantity token u).
  { unfold held_quantity. rewrite Hnone. lra. }
  assert (Hw1 : w1 = set_USERS (insert user_id (after_buy token amount p u)) (advance w)).
  { unfold w1. by rewrite (process_buy_amount_run _ _ _ _ _ _ _ Hu Hp Hppos Ha Hle Hheld). }
  assert (Hu1 : USERS w1 !! user_id = Some (after_buy token amount p u)).
  { rewrite Hw1. simpl. apply lookup_insert_eq. }
  assert (Hh1 : PyDict.get token (holdings (after_buy token amount p u))
                = Some (bought_holding None (amount / p) p)).
  { simpl. rewrite Hnone. apply PyDictFacts.get_set_eq. }
  assert (Hp1 : get_token_price token w1 = (Ok p', advance w1)).
  { destruct (get_token_price_inv _ _ _ _ Hp') as (td & Htd & -> & _).
    rewrite (get_token_price_known _ _ w1 Htd). by rewrite Hw1. }
  assert (Hsold : amount / p <= quantity (bought_holding None (amount / p) p))
    by (simpl; lra).
  pose proof (process_sell_quantity_run user_id token (amount / p) p'
                (after_buy token amount p u) _ w1 (advance w1)
                Hu1 Hh1 Hp1 Hq Hsold) as Hrun.
  fold sale in Hrun. rewrite Hrun. split; [done |].
  eexists. split; [simpl; apply lookup_insert_eq |].
  unfold after_sell. simpl.
  rewrite (proj2 (Qeq_bool_iff (0 + amount / p - amount / p) 0)) by ring.
  simpl. rewrite Hnone, PyDictFacts.del_set, (del_absent _ _ Hnone).
  split; [done |]. split; [done |]. split; [reflexivity |].
  intros Heq. rewrite Heq. field. lra.
Qed.

Lemma buy_then_sell_back_witness :
  fst (process_sell_quantity 7 "MOON" (Some (100 / (0.5 * (1 + 0))))
         (snd (process_buy_amount 7 "MOON" (Some 100) world_newcomer)))
  = Ok (Sold (100 / (0.5 * (1 + 0))) (100 / (0.5 * (1 + 0)) * (0.5 * (1 + 0)))
          (0.5 * (1 + 0)), SELECTING_ACTION).
Proof.
  assert (Hp : 0 < 0.5 * (1 + 0)) by lra.
  assert (Ha : 0 < 100) by lra.
  assert (Hle : 100 <= sui_balance seeded_user_data) by (simpl; lra).
  exact (proj1 (buy_then_sell_back 7 "MOON" 100 (0.5 * (1 + 0)) (0.5 * (1 + 0))
                  seeded_user_data world_newcomer
                  eq_refl eq_refl eq_refl eq_refl Hp Ha Hle)).
Defined.

(** ** The cost basis *)

(** X11: a buy adds exactly the amount spent to the cost basis of the token
    (quantity times average cost, 0 before the first purchase) and leaves
    the cost basis of every other token alone; for a token already held
    with a positive quantity the new average cost lies between the old
    average cost and the purchase price. *)
Theorem buy_adds_to_cost_basis (user_id : Z) (token : string) (amount p : Q)
    (u : user_data) (w w1 : world) :
  USERS w !! user_id = Some u ->
  get_token_price token w = (Ok p, w1) ->
  0 < p ->
  0 < amount ->
  amount <= sui_balance u ->
  0 <= held_quantity token u ->
  exists u',
    USERS (snd (process_buy_amount user_id token (Some amount) w)) !! user_id = Some u'
    /\ cost_basis token u' == cost_basis token u + amount
    /\ (forall other, other <> token -> cost_basis other u' = cost_basis other u)
    /\ (forall h h', PyDict.get token (holdings u) = Some h ->
          PyDict.get token (holdings u') = Some h' ->
          0 < quantity h ->
          (avg_price h <= p -> avg_price h <= avg_price h' <= p)
          /\ (p <= avg_price h -> p <= avg_price h' <= avg_price h)).
Proof.
  intros Hu Hp Hppos Ha Hle Hheld.
  assert (Hb : 0 < amount / p) by (apply Qlt_shift_div_l; lra).
  rewrite (process_buy_amount_run _ _ _ _ _ _ _ Hu Hp Hppos Ha Hle Hheld).
  exists (after_buy token amount p u). simpl.
  split; [apply lookup_insert_eq |].
  unfold cost_basis, held_quantity in *. simpl.
  rewrite PyDictFacts.get_set_eq. split; [| split].
  - destruct (PyDict.get token (holdings u)) as [h|]; simpl.
    + field. split; [lra | nra].
    + field. split; lra.
  - intros other Hne. by rewrite PyDictFacts.get_set_ne.
  - intros h h' Hh [= <-] Hq. rewrite Hh. simpl.
    set (b := amount / p) in *. set (q := quantity h) in *. set (a := avg_price h) in *.
    assert (Hx : (q * a + b * p) / (q + b) * (q + b) == q * a + b * p) by (field; lra).
    set (x := (q * a + b * p) / (q + b)) in *.
    split; intros Hap; split; nra.
Qed.

Lemma buy_adds_to_cost_basis_witness :
  exists u',
    USERS (snd (process_buy_amount 7 "MOON" (Some 100) world_trader)) !! 7%Z = Some u'
    /\ cost_basis "MOON" u' == 200 * 0.5 + 100.
Proof.
  assert (Hp : 0 < 0.5 * (1 + 0)) by lra.
  assert (Ha : 0 < 100) by lra.
  assert (Hle : 100 <= sui_balance trader) by (simpl; lra).
  assert (Hheld : 0 <= held_quantity "MOON" trader) by (unfold held_quantity; simpl; lra).
  destruct (buy_adds_to_cost_basis 7 "MOON" 100 (0.5 * (1 + 0)) trader
              world_trader (advance world_trader) eq_refl eq_refl Hp Ha Hle Hheld)
    as (u' & Hu' & Hcost & _).
  exists u'. split; [exact Hu' | exact Hcost].
Defined.

(** ** The valuations in closed form *)

Lemma cursor_iter_advance (n : nat) (w : world) :
  cursor (Nat.iter n advance w) = (n + cursor w)%nat
  /\ draws (Nat.iter n advance w) = draws w
  /\ USERS (Nat.iter n advance w) = USERS w.
Proof.
  induction n as [|n (IHc & IHd & IHu)]; simpl; [done |].
  by rewrite IHc, IHd, IHu.
Qed.

Lemma sum_over_holdings_closed term (items : list (string * holding)) total w :
  (forall token, token ∈ PyDict.keys items -> is_Some (PyDict.get token TOKENS)) ->
  sum_over_holdings term items total w
  = (Ok (priced_sum term items (draws w) (cursor w) total),
     Nat.iter (length items) advance w).
Proof.
  revert total w. induction items as [|[token h] rest IH]; intros total w Hk; simpl.
  - done.
  - destruct (Hk token) as [td Htd]; [simpl; by left |].
    unfold bind. rewrite (get_token_price_known _ _ _ Htd).
    rewrite IH by (intros x Hx; apply Hk; simpl; by right).
    unfold base_price, next_draw. rewrite Htd. simpl.
    by rewrite <- Nat.iter_succ_r.
Qed.

Lemma priced_sum_total term items d c total :
  priced_sum term items d c total == total + priced_sum term items d c 0.
Proof.
  revert c total. induction items as [|[token h] rest IH]; intros c total; simpl.
  - ring.
  - rewrite IH. rewrite (IH _ (0 + _)). ring.
Qed.

Lemma priced_pnl_value items d c d' c' :
  (forall i, (i < length items)%nat -> d' (c' + i)%nat = d (c + i)%nat) ->
  priced_sum pnl_term items d' c' 0
  == priced_sum value_term items d c 0 - total_cost items.
Proof.
  revert c c'. induction items as [|[token h] rest IH]; intros c c' Hd; simpl.
  - ring.
  - rewrite (priced_sum_total pnl_term), (priced_sum_total value_term).
    rewrite (IH (S c) (S c')).
    + pose proof (Hd 0%nat ltac:(simpl; lia)) as H0.
      rewrite !Nat.add_0_r in H0. rewrite H0.
      unfold pnl_term, value_term. ring.
    + intros i Hi. specialize (Hd (S i) ltac:(simpl; lia)).
      by rewrite !Nat.add_succ_r in Hd.
Qed.

(** X12: when the second pass over the holdings sees the prices of the
    first, the two valuations agree: for a user whose held tokens are
    symbols of the token table, [get_portfolio_value] and then
    [get_unrealized_pnl] each consume one draw per holding and leave
    [USERS] alone, and if the draws of the second call repeat those of the
    first, the unrealized PnL is the portfolio value minus what was paid
    for the holdings. *)
Theorem pnl_is_value_minus_cost (user_id : Z) (u : user_data) (w : world) :
  USERS w !! user_id = Some u ->
  holds_known_tokens u ->
  let n := length (holdings u) in
  (forall i, (i < n)%nat ->
     draws w (n + cursor w + i)%nat = draws w (cursor w + i)%nat) ->
  exists total_value total_pnl,
    get_portfolio_value user_id w = (Ok total_value, Nat.iter n advance w)
    /\ get_unrealized_pnl user_id (Nat.iter n advance w)
       = (Ok total_pnl, Nat.iter n advance (Nat.iter n advance w))
    /\ total_pnl == total_value - total_cost (holdings u).
Proof.
  intros Hu Hknown n Hsame.
  destruct (cursor_iter_advance n w) as (Hc & Hd & Husers).
  eexists _, _. split; [| split].
  - unfold get_portfolio_value. rewrite Hu.
    apply (sum_over_holdings_closed _ _ _ _ Hknown).
  - unfold get_unrealized_pnl. rewrite Husers, Hu.
    apply (sum_over_holdings_closed _ _ _ _ Hknown).
  - rewrite Hc, Hd.
    pose proof (priced_pnl_value (holdings u) (draws w) (cursor w)
                  (draws w) (n + cursor w) Hsame) as Hrel.
    unfold pnl_term, value_term in Hrel.
    rewrite (priced_sum_total _ _ _ (n + cursor w)), Hrel.
    rewrite (priced_sum_total _ _ _ (cursor w) 0.0). ring.
Qed.

Lemma pnl_is_value_minus_cost_witness :
  exists total_value total_pnl,
    get_portfolio_value 7 world_trader = (Ok total_value, advance world_trader)
    /\ get_unrealized_pnl 7 (advance world_trader)
       = (Ok total_pnl, advance (advance world_trader))
    /\ total_pnl == total_value - 200 * 0.5.
Proof.
  assert (Hknown : holds_known_tokens trader).
  { intros token [->|Hin%elem_of_nil]%elem_of_cons; [by eexists | done]. }
  destruct (pnl_is_value_minus_cost 7 trader world_trader eq_refl Hknown)
    as (v & p & Hv & Hp & Hrel); [done |].
  exists v, p. split; [exact Hv |]. split; [exact Hp |].
  rewrite Hrel. simpl. ring.
Defined.






(** ** The token list *)

(** X14: the token list and the buy dialogue agree on what is on sale.
    [view_tokens] returns from every world, lists MOON, STAR, ROCKET and
    GALAXY in this order (never SUI), each with the price its base price and
    a draw of its own give, followed by two more draws for the change and
    the volume, twelve draws in all; and a token is listed exactly when
    [process_buy_token] accepts it for some text. *)
Theorem view_tokens_lists_tokens_on_sale (w : world) :
  view_tokens w
  = (Ok (imap (fun i token =>
                 (token,
                  base_price token * (1 + draws w (3 * i + cursor w)%nat),
                  draws w (3 * i + 1 + cursor w)%nat,
                  draws w (3 * i + 2 + cursor w)%nat))
           tradable_tokens),
     Nat.iter 12 advance w)
  /\ forall token,
       token ∈ tradable_tokens
       <-> exists upper text,
             process_buy_token upper text = (Some token, ENTERING_AMOUNT).
Proof.
  split; [reflexivity |].
  intros token. split.
  - intros Hin. exists (fun s => s), token. unfold tradable_tokens in Hin.
    repeat (apply elem_of_cons in Hin as [-> | Hin]); try reflexivity.
    by apply elem_of_nil in Hin.
  - intros (upper & text & Hstored).
    by apply process_buy_token_stored in Hstored as (_ & _ & Hin).
Qed.

(** ** The portfolio screen *)

Lemma holding_rows_closed (items : list (string * holding)) (w : world) :
  (forall token, token ∈ PyDict.keys items -> is_Some (PyDict.get token TOKENS)) ->
  exists rows,
    holding_rows items w = (Ok rows, Nat.iter (length items) advance w)
    /\ map row_token rows = PyDict.keys items
    /\ map (fun r => (row_quantity r, row_avg_price r)) rows
       = map (fun h => (quantity h, avg_price h)) (PyDict.values items)
    /\ Forall (fun r => row_pnl r == row_value r - row_quantity r * row_avg_price r)
         rows.
Proof.
  revert w. induction items as [|[token h] rest IH]; intros w Hk; simpl.
  - exists []. by repeat split.
  - destruct (Hk token) as [td Htd]; [simpl; by left |].
    destruct (IH (advance w)) as (rows & Hrun & Htokens & Hpairs & Hrows).
    { intros x Hx. apply Hk. simpl. by right. }
    unfold bind. rewrite (get_token_price_known _ _ _ Htd). unfold lift.
    match goal with
    | |- context [pnl_percentage ?p ?v] =>
        destruct (pnl_percentage_total p v) as [pct ->]
    end.
    rewrite Hrun. eexists. split.
    { unfold ret. by rewrite <- Nat.iter_succ_r. }
    simpl. rewrite Htokens, Hpairs. split; [done |]. split; [done |].
    apply Forall_cons. split; [simpl; ring | done].
Qed.

(** X15: the portfolio screen shows the holdings as they are.  For a user
    who exists and holds symbols of the token table, [show_portfolio]
    returns, leaves [USERS] alone, reports the balance of the record, and
    lists one row per holding in the order of the holdings with the
    quantity and the average cost of that holding; inside a row the PnL is
    the value minus quantity times average cost, because a row uses one
    price for both. *)
Theorem show_portfolio_rows (user_id : Z) (u : user_data) (w : world) :
  USERS w !! user_id = Some u ->
  holds_known_tokens u ->
  exists message rows w',
    show_portfolio user_id w = (Ok (Some message, rows), w')
    /\ USERS w' = USERS w
    /\ msg_balance message = sui_balance u
    /\ map row_token rows = PyDict.keys (holdings u)
    /\ map (fun r => (row_quantity r, row_avg_price r)) rows
       = map (fun h => (quantity h, avg_price h)) (PyDict.values (holdings u))
    /\ Forall (fun r => row_pnl r == row_value r - row_quantity r * row_avg_price r)
         rows.
Proof.
  intros Hu Hknown. pose (n := length (holdings u)).
  destruct (cursor_iter_advance n w) as (_ & _ & Hu1).
  destruct (cursor_iter_advance n (Nat.iter n advance w)) as (_ & _ & Hu2).
  destruct (cursor_iter_advance n (Nat.iter n advance (Nat.iter n advance w)))
    as (_ & _ & Hu3).
  destruct (holding_rows_closed (holdings u)
              (Nat.iter n advance (Nat.iter n advance w)) Hknown)
    as (rows & Hrows & Htokens & Hpairs & Hconsistent).
  unfold show_portfolio, bind, USERS_getitem, format_balance_message.
  rewrite Hu. unfold bind, get_portfolio_value, get_unrealized_pnl. rewrite Hu.
  rewrite (sum_over_holdings_closed _ _ _ _ Hknown). fold n. rewrite Hu1, Hu.
  rewrite (sum_over_holdings_closed _ _ _ _ Hknown). fold n. unfold lift.
  match goal with
  | |- context [pnl_percentage ?p ?v] =>
      destruct (pnl_percentage_total p v) as [pct ->]
  end.
  unfold ret. rewrite Hrows. fold n.
  eexists _, rows, _. split; [reflexivity |].
  split; [by rewrite Hu3, Hu2, Hu1 |]. by repeat split.
Qed.

Lemma show_portfolio_rows_witness :
  exists message rows w',
    show_portfolio 7 world_trader = (Ok (Some message, rows), w')
    /\ map row_token rows = ["MOON"%string].
Proof.
  assert (Hknown : holds_known_tokens trader).
  { intros token [->|Hin%elem_of_nil]%elem_of_cons; [by eexists | done]. }
  destruct (show_portfolio_rows 7 trader world_trader eq_refl Hknown)
    as (message & rows & w' & Hrun & _ & _ & Htokens & _).
  exists message, rows, w'. by split.
Defined.
